(** * XeroML Python SDK: typed request/response mapping

  A shallow embedding of the SDK's modules

    - [errors.py]        (module [Errors])
    - [types.py]         (module [Types])
    - [client.py]        (module [Client])
    - [async_client.py]  (module [AsyncClient])
    - [session.py]       (modules [Session] and [AsyncSession])
    - [__init__.py]      (module [Package])

  together with the properties of the natural-language specification that
  concern them.  Decoded JSON values are the data every module exchanges;
  Python exceptions are explicit results. *)

From Stdlib Require Import List String Ascii Bool ZArith QArith Lia.
Import ListNotations.
Local Open Scope string_scope.
Local Open Scope Z_scope.

(* ================================================================= *)
(** ** Decoded JSON values *)

(** What [httpx.Response.json()] hands to the SDK.  Python keeps integers
  and floats apart ([1] is an [int], [1.0] a [float]); a float is modelled
  by the rational it denotes, so the rounding of a float literal, NaN and
  the infinities are outside the model.  [JNull] is Python's [None].  An
  object is a [dict] with string keys: an association list in insertion
  order whose first binding of a key is the dict's entry. *)
Module Json.

#[local] Unset Elimination Schemes.
Inductive json : Type :=
| JNull
| JBool (b : bool)
| JInt (z : Z)
| JFloat (q : Q)
| JStr (s : string)
| JArr (l : list json)
| JObj (d : list (string * json)).
#[local] Set Elimination Schemes.

Definition dict := list (string * json).

(** [d.get(k)] on the entries of a dict, [None] for a missing key. *)
Fixpoint dict_get (k : string) (d : dict) : option json :=
  match d with
  | [] => None
  | (k', v) :: r => if String.eqb k k' then Some v else dict_get k r
  end.

(** [d[k] = v]: replaces the entry, or appends a new one at the end. *)
Fixpoint dict_set (k : string) (v : json) (d : dict) : dict :=
  match d with
  | [] => [(k, v)]
  | (k', v') :: r =>
      if String.eqb k k' then (k, v) :: r else (k', v') :: dict_set k v r
  end.

(** [list(d)]: the keys in insertion order. *)
Definition dict_keys (d : dict) : list string := map fst d.

End Json.
Import Json.

(* ================================================================= *)
(** ** The Python operations the SDK applies to decoded JSON *)

Module Py.

(** [XeroMLError] instances: the class that was instantiated and the four
    attributes set by [XeroMLError.__init__].  [code] and [message] hold
    whatever the caller passed (the constructor checks no types). *)
Inductive error_class : Type :=
| XeroMLError
| InvalidAPIKeyError
| CreditsExhaustedError
| RateLimitedError
| ParseFailedError
| SessionNotFoundError
| SessionEndedError.

Record api_error : Type := mk_error {
  cls : error_class;
  code : json;
  status : Z;
  message : json;
  details : json
}.

(** The exceptions a call into the SDK can end with. *)
Inductive exn : Type :=
| ApiError (e : api_error)      (* an instance of XeroMLError or a subclass *)
| AttributeError                (* [x.get] on a value that is not a dict *)
| TypeError                     (* [**x], [x[k]] or iteration on a wrong type *)
| KeyError (k : string)         (* [d[k]] with [k] missing *)
| ValidationError               (* pydantic: the payload does not fit the model *)
| JSONDecodeError               (* [res.json()] on a body that is not JSON *)
| TransportError (why : string) (* raised by httpx itself: network, timeout *)
| ModuleNotFoundError (m : string)      (* import of a module that is not there *)
| ImportError (name m : string)         (* [from m import name], [name] unbound *).

Inductive result (A : Type) : Type :=
| Ok (a : A)
| Raise (e : exn).
Arguments Ok {A} a.
Arguments Raise {A} e.

Definition bind {A B} (r : result A) (f : A -> result B) : result B :=
  match r with
  | Ok a => f a
  | Raise e => Raise e
  end.

(** [x.get(k, default)]: only dicts have the method. *)
Definition get (x : json) (k : string) (default : json) : result json :=
  match x with
  | JObj d => Ok (match dict_get k d with Some v => v | None => default end)
  | _ => Raise AttributeError
  end.

(** [x[k]] with a string key. *)
Definition getitem (x : json) (k : string) : result json :=
  match x with
  | JObj d =>
      match dict_get k d with
      | Some v => Ok v
      | None => Raise (KeyError k)
      end
  | _ => Raise TypeError
  end.

(** The characters of a string, each as a one-character string. *)
Fixpoint chars (s : string) : list json :=
  match s with
  | EmptyString => []
  | String c r => JStr (String c EmptyString) :: chars r
  end.

(** [for s in x]: a list yields its elements, a dict its keys, a string
    its characters; nothing else is iterable. *)
Definition iter (x : json) : result (list json) :=
  match x with
  | JArr l => Ok l
  | JObj d => Ok (map JStr (dict_keys d))
  | JStr s => Ok (chars s)
  | _ => Raise TypeError
  end.

(** [**x]: the argument after [**] must be a mapping. *)
Definition kwargs (x : json) : result dict :=
  match x with
  | JObj d => Ok d
  | _ => Raise TypeError
  end.

(** [[f(s) for s in l]]: stops at the first element that raises. *)
Fixpoint comprehension {A} (f : json -> result A) (l : list json)
  : result (list A) :=
  match l with
  | [] => Ok []
  | x :: r =>
      bind (f x) (fun a => bind (comprehension f r) (fun t => Ok (a :: t)))
  end.

End Py.
Import Py.

Declare Scope py_scope.
Delimit Scope py_scope with py.
Notation "x <- c ;; k" := (Py.bind c (fun x => k))
(at level 61, c at next level, right associativity) : py_scope.
Local Open Scope py_scope.

(* ================================================================= *)
(** ** errors.py *)

Module Errors.

(** [XeroMLError.__init__(code, status, message, details=None)]. *)
Definition XeroMLError_init (c : error_class) (code : json) (status : Z)
    (message : json) (details : option json) : api_error :=
  {| cls := c; code := code; status := status; message := message;
     details := match details with Some d => d | None => JNull end |}.

(** What each subclass fixes in its [__init__]: the [code] and [status] it
    passes to the base class and the default of its [message] parameter.
    The base class fixes nothing. *)
Definition subclass_fields (c : error_class) : option (string * Z * string) :=
  match c with
  | XeroMLError => None
  | InvalidAPIKeyError =>
      Some ("invalid_api_key", 401, "Invalid or revoked API key.")
  | CreditsExhaustedError =>
      Some ("credits_exhausted", 402, "Credits exhausted.")
  | RateLimitedError =>
      Some ("rate_limited", 429, "Rate limit exceeded.")
  | ParseFailedError =>
      Some ("parse_failed", 422, "Parse failed.")
  | SessionNotFoundError =>
      Some ("session_not_found", 404, "Session not found.")
  | SessionEndedError =>
      Some ("session_ended", 409, "Session is already completed.")
  end.

Definition fixed_code (c : error_class) : option string :=
  option_map (fun f => fst (fst f)) (subclass_fields c).

Definition fixed_status (c : error_class) : option Z :=
  option_map (fun f => snd (fst f)) (subclass_fields c).

Definition default_message (c : error_class) : option string :=
  option_map snd (subclass_fields c).

(** [error_cls(message=..., details=...)] with either keyword possibly
    omitted.  A subclass fills in its fixed code and status, and its default
    message when [message] is omitted; the base class cannot be called this
    way (it requires [code] and [status]). *)
Definition construct (c : error_class) (message : option json)
    (details : option json) : result api_error :=
  match subclass_fields c with
  | Some (code, status, default) =>
      Ok (XeroMLError_init c (JStr code) status
            (match message with Some m => m | None => JStr default end)
            details)
  | None => Raise TypeError
  end.

Definition _ERROR_MAP : list (Z * error_class) :=
  [ (401, InvalidAPIKeyError);
    (402, CreditsExhaustedError);
    (429, RateLimitedError);
    (422, ParseFailedError);
    (404, SessionNotFoundError);
    (409, SessionEndedError) ].

(** [_ERROR_MAP.get(status_code, default)]. *)
Fixpoint map_get (k : Z) (m : list (Z * error_class))
    (default : error_class) : error_class :=
  match m with
  | [] => default
  | (k', c) :: r => if Z.eqb k k' then c else map_get k r default
  end.

(** [error_cls is XeroMLError]. *)
Definition is_XeroMLError (c : error_class) : bool :=
  match c with XeroMLError => true | _ => false end.

(** [raise_for_status(status_code, body)].  The function has no [return]:
    it ends in one of its two [raise] statements, or earlier in the
    [AttributeError] of a [.get] on something that is not a dict. *)
Definition raise_for_status (status_code : Z) (body : json) : result unit :=
  error_data <- Py.get body "error" body ;;
  message <- Py.get error_data "message" (JStr "Unknown error") ;;
  details <- Py.get error_data "details" JNull ;;
  let error_cls := map_get status_code _ERROR_MAP XeroMLError in
  if is_XeroMLError error_cls then
    code <- Py.get error_data "code" (JStr "unknown") ;;
    Raise (ApiError
             (XeroMLError_init XeroMLError code status_code message
                (Some details)))
  else
    e <- construct error_cls (Some message) (Some details) ;;
    Raise (ApiError e).

End Errors.

(* ================================================================= *)
(** ** types.py *)

(** The models are pydantic [BaseModel]s with the default configuration:
    a value for a field is looked up in the keyword arguments by the
    field's name; a field that is present is validated against its
    annotation and constraints, a field that is absent takes its declared
    default (which is not validated) or, having none, is reported missing;
    keys that name no field are ignored.  Any failure ends in one
    [ValidationError]; which fields it lists is not modelled. *)
Module Types.

(** pydantic validates in lax mode, where a value that is not natively of
    the annotated type may still be coerced (a numeric string or a boolean
    for a number, an integral float for an [int], ["yes"] for a [bool]).
    That table belongs to the library, not to the SDK, so it is a parameter:
    each function is consulted only on values that are not already of the
    target type. *)
Class Lax : Type := {
  lax_float : json -> option Q;
  lax_int : json -> option Z;
  lax_bool : json -> option bool
}.

Definition invalid {A} : result A := Raise ValidationError.

Definition coerced {A} (o : option A) : result A :=
  match o with Some a => Ok a | None => invalid end.

(** [str]: nothing but a string is accepted. *)
Definition v_str (v : json) : result string :=
  match v with JStr s => Ok s | _ => invalid end.

(** [str = Field(pattern=r"^(a|b|c)$")]: the patterns of types.py are all of
    this form, an alternation of literal words anchored at both ends (in
    pydantic's default regex engine [$] is the very end of the string), so a
    string matches when it is one of the words. *)
Definition v_pattern (words : list string) (v : json) : result string :=
  s <- v_str v ;;
  if existsb (String.eqb s) words then Ok s else invalid.

(** [float(z)] for a Python [int]: the nearest double, ties to the even
    mantissa, and [None] where Python raises [OverflowError].  Up to 2**53
    in magnitude the conversion is exact; beyond, the 53 leading bits are
    kept and the rest rounded. *)
Definition double_of_Z (z : Z) : option Q :=
  let a := Z.abs z in
  if a <? 2 ^ 53 then Some (inject_Z z)
  else
    let e := Z.log2 a - 52 in
    let m := a / 2 ^ e in
    let r := a mod 2 ^ e in
    let half := 2 ^ (e - 1) in
    let m' := if (half <? r) || ((r =? half) && Z.odd m) then m + 1 else m in
    let v := m' * 2 ^ e in
    if 2 ^ 1024 <=? v then None else Some (inject_Z (Z.sgn z * v)).

(** [float]: a float, or an integer converted to one; an integer too large
    for a double is rejected. *)
Definition v_float {L : Lax} (v : json) : result Q :=
  match v with
  | JFloat q => Ok q
  | JInt z => coerced (double_of_Z z)
  | _ => coerced (lax_float v)
  end.

(** [float = Field(ge=lo, le=hi)]: the bounds apply to the converted value. *)
Definition v_float_range {L : Lax} (lo hi : Q) (v : json) : result Q :=
  q <- v_float v ;;
  if Qle_bool lo q && Qle_bool q hi then Ok q else invalid.

Definition v_int {L : Lax} (v : json) : result Z :=
  match v with
  | JInt z => Ok z
  | _ => coerced (lax_int v)
  end.

Definition v_bool {L : Lax} (v : json) : result bool :=
  match v with
  | JBool b => Ok b
  | _ => coerced (lax_bool v)
  end.

(** [T | None]. *)
Definition v_optional {A} (f : json -> result A) (v : json)
  : result (option A) :=
  match v with
  | JNull => Ok None
  | _ => a <- f v ;; Ok (Some a)
  end.

Fixpoint v_all {A} (f : json -> result A) (l : list json) : result (list A) :=
  match l with
  | [] => Ok []
  | x :: r => a <- f x ;; t <- v_all f r ;; Ok (a :: t)
  end.

(** [list[T]]: a JSON array whose elements all validate, in order. *)
Definition v_list {A} (f : json -> result A) (v : json) : result (list A) :=
  match v with
  | JArr l => v_all f l
  | _ => invalid
  end.

(** A field whose annotation is another model: the value must be a dict. *)
Definition v_model {A} (validate : dict -> result A) (v : json) : result A :=
  match v with
  | JObj d => validate d
  | _ => invalid
  end.

(** One field of a model: [default] is [None] for a required field. *)
Definition field {A} (d : dict) (name : string) (validate : json -> result A)
    (default : option A) : result A :=
  match dict_get name d with
  | Some v => validate v
  | None => coerced default
  end.

Definition required {A} : option A := None.

Module LatentStates.
Record t : Type := {
  goal_intent : string;
  action_readiness : string;
  ambiguity_level : string;
  risk_sensitivity : string;
  intent_scope : string
}.
Definition action_readiness_words := ["exploring"; "deciding"; "executing"].
Definition ambiguity_level_words := ["clear"; "partial"; "conflicting"].
Definition risk_sensitivity_words := ["low"; "medium"; "high"].
Definition intent_scope_words := ["single"; "compound"; "multi_step"].
Definition validate (d : dict) : result t :=
  gi <- field d "goal_intent" v_str required ;;
  ar <- field d "action_readiness" (v_pattern action_readiness_words) required ;;
  al <- field d "ambiguity_level" (v_pattern ambiguity_level_words) required ;;
  rs <- field d "risk_sensitivity" (v_pattern risk_sensitivity_words) required ;;
  sc <- field d "intent_scope" (v_pattern intent_scope_words) required ;;
  Ok {| goal_intent := gi; action_readiness := ar; ambiguity_level := al;
        risk_sensitivity := rs; intent_scope := sc |}.
End LatentStates.

Module IntentMeta.
Record t : Type := {
  source : string;
  confidence : Q;
  negotiation_history : list string;
  latent_states : LatentStates.t
}.
Definition validate {L : Lax} (d : dict) : result t :=
  so <- field d "source" v_str (Some "user_input") ;;
  co <- field d "confidence" (v_float_range 0 1) required ;;
  nh <- field d "negotiation_history" (v_list v_str) (Some []) ;;
  ls <- field d "latent_states" (v_model LatentStates.validate) required ;;
  Ok {| source := so; confidence := co; negotiation_history := nh;
        latent_states := ls |}.
End IntentMeta.

Module SubGoal.
#[local] Unset Elimination Schemes.
Inductive t : Type := Build {
  id : string;
  goal : string;
  status : string;
  priority : Q;
  success_criteria : list string;
  constraints : list string;
  uncertainty : Q;
  context_requirements : list string;
  modality : string;
  dependencies : list string;
  children : list t
}.
#[local] Set Elimination Schemes.
Definition status_words :=
  ["pending"; "active"; "done"; "blocked"; "abandoned"; "background"].

(** [children: list[SubGoal] = []] makes the model recursive.  The
    recursion goes through the dict's entries and the array's elements, so
    the lookup of [children] is written as a local loop over the entries:
    it is [field d "children" (v_list validate_value) (Some [])], as
    [validate_value_eq] shows. *)
Fixpoint validate_value {L : Lax} (v : json) : result t :=
  match v with
  | JObj d =>
      i <- field d "id" v_str required ;;
      g <- field d "goal" v_str required ;;
      st <- field d "status" (v_pattern status_words) (Some "pending") ;;
      pr <- field d "priority" (v_float_range 0 1) required ;;
      sc <- field d "success_criteria" (v_list v_str) (Some []) ;;
      cs <- field d "constraints" (v_list v_str) (Some []) ;;
      un <- field d "uncertainty" (v_float_range 0 1) (Some (1 # 2)) ;;
      cr <- field d "context_requirements" (v_list v_str) (Some []) ;;
      mo <- field d "modality" v_str (Some "text") ;;
      de <- field d "dependencies" (v_list v_str) (Some []) ;;
      ch <- (fix children_field (entries : dict) : result (list t) :=
               match entries with
               | [] => Ok []
               | (k, x) :: r =>
                   if String.eqb "children" k then
                     match x with
                     | JArr l =>
                         (fix all (l : list json) : result (list t) :=
                            match l with
                            | [] => Ok []
                            | y :: r =>
                                a <- validate_value y ;;
                                t <- all r ;; Ok (a :: t)
                            end) l
                     | _ => invalid
                     end
                   else children_field r
               end) d ;;
      Ok {| id := i; goal := g; status := st; priority := pr;
            success_criteria := sc; constraints := cs; uncertainty := un;
            context_requirements := cr; modality := mo; dependencies := de;
            children := ch |}
  | _ => invalid
  end.

(** The constructor call of [SubGoal] on the keyword arguments [d]. *)
Definition validate {L : Lax} (d : dict) : result t := validate_value (JObj d).
End SubGoal.

Module IntentGraph.
Record t : Type := {
  schema_version : string;
  root_goal : string;
  sub_goals : list SubGoal.t;
  meta : IntentMeta.t
}.
Definition validate {L : Lax} (d : dict) : result t :=
  sv <- field d "schema_version" v_str (Some "0.1.0") ;;
  rg <- field d "root_goal" v_str required ;;
  sg <- field d "sub_goals" (v_list SubGoal.validate_value) required ;;
  me <- field d "meta" (v_model IntentMeta.validate) required ;;
  Ok {| schema_version := sv; root_goal := rg; sub_goals := sg; meta := me |}.
End IntentGraph.

Module ParseResponse.
Record t : Type := {
  graph : IntentGraph.t;
  session_id : option string;
  request_id : string;
  latency_ms : Z
}.
Definition validate {L : Lax} (d : dict) : result t :=
  gr <- field d "graph" (v_model IntentGraph.validate) required ;;
  si <- field d "session_id" (v_optional v_str) (Some None) ;;
  ri <- field d "request_id" v_str required ;;
  la <- field d "latency_ms" v_int required ;;
  Ok {| graph := gr; session_id := si; request_id := ri; latency_ms := la |}.
End ParseResponse.

Module DriftReport.
Record t : Type := {
  detected : bool;
  drift_type : option string;
  severity : option Q;
  description : option string;
  previous_goal : option string;
  current_goal : option string
}.
Definition validate {L : Lax} (d : dict) : result t :=
  de <- field d "detected" v_bool required ;;
  dt <- field d "drift_type" (v_optional v_str) (Some None) ;;
  se <- field d "severity" (v_optional v_float) (Some None) ;;
  ds <- field d "description" (v_optional v_str) (Some None) ;;
  pg <- field d "previous_goal" (v_optional v_str) (Some None) ;;
  cg <- field d "current_goal" (v_optional v_str) (Some None) ;;
  Ok {| detected := de; drift_type := dt; severity := se; description := ds;
        previous_goal := pg; current_goal := cg |}.
End DriftReport.

Module SessionInfo.
Record t : Type := {
  session_id : string;
  status : string;
  turn_count : Z;
  created_at : string;
  updated_at : string
}.
Definition validate {L : Lax} (d : dict) : result t :=
  si <- field d "session_id" v_str required ;;
  st <- field d "status" v_str required ;;
  tc <- field d "turn_count" v_int required ;;
  ca <- field d "created_at" v_str required ;;
  ua <- field d "updated_at" v_str required ;;
  Ok {| session_id := si; status := st; turn_count := tc; created_at := ca;
        updated_at := ua |}.
End SessionInfo.

Module CreditInfo.
Record t : Type := { used : Z; total : Z; remaining : Z }.
Definition validate {L : Lax} (d : dict) : result t :=
  us <- field d "used" v_int required ;;
  to <- field d "total" v_int required ;;
  re <- field d "remaining" v_int required ;;
  Ok {| used := us; total := to; remaining := re |}.
End CreditInfo.

Module UsageMonth.
Record t : Type := {
  month : string;
  parse_calls : Z;
  drift_checks : Z;
  session_creates : Z;
  total_latency_ms : Z
}.
Definition validate {L : Lax} (d : dict) : result t :=
  mo <- field d "month" v_str required ;;
  pc <- field d "parse_calls" v_int required ;;
  dc <- field d "drift_checks" v_int required ;;
  sc <- field d "session_creates" v_int required ;;
  tl <- field d "total_latency_ms" v_int (Some 0) ;;
  Ok {| month := mo; parse_calls := pc; drift_checks := dc;
        session_creates := sc; total_latency_ms := tl |}.
End UsageMonth.

Module UsageInfo.
Record t : Type := {
  credits : CreditInfo.t;
  tier : string;
  rate_limit : Z;
  usage : list UsageMonth.t
}.
Definition validate {L : Lax} (d : dict) : result t :=
  cr <- field d "credits" (v_model CreditInfo.validate) required ;;
  ti <- field d "tier" v_str required ;;
  rl <- field d "rate_limit" v_int required ;;
  us <- field d "usage" (v_list (v_model UsageMonth.validate)) (Some []) ;;
  Ok {| credits := cr; tier := ti; rate_limit := rl; usage := us |}.
End UsageInfo.

End Types.

(* ================================================================= *)
(** ** The HTTP exchange *)

(** [self._http] is an httpx client configured once, at construction, with
    the base URL, the two headers and the timeout.  The SDK only ever calls
    its [request(method, path, json=...)] and reads [is_success],
    [status_code] and [json()] of what comes back, so the connection is a
    function from requests to responses (or to the exception httpx raises),
    and a call into the SDK is observed as the list of requests it sent
    together with its outcome. *)
Module Http.

Record Request : Type := {
  method : string;
  path : string;
  json_kw : option json        (* the [json=] keyword; [None] when not passed *)
}.

Record Response : Type := {
  status_code : Z;
  content : option json        (* [None]: the body is not JSON text *)
}.

(** [res.is_success]: a 2xx status. *)
Definition is_success (res : Response) : bool :=
  (200 <=? status_code res) && (status_code res <? 300).

(** [res.json()]. *)
Definition res_json (res : Response) : result json :=
  match content res with
  | Some j => Ok j
  | None => Raise JSONDecodeError
  end.

Definition Transport : Type := Request -> result Response.

(** Blocking calls: given the connection, the requests sent and the outcome. *)
Definition io (A : Type) : Type := Transport -> list Request * result A.

Definition ret {A} (a : A) : io A := fun _ => ([], Ok a).

Definition lift {A} (r : result A) : io A := fun _ => ([], r).

Definition bind {A B} (m : io A) (f : A -> io B) : io B :=
  fun http =>
    let (sent, r) := m http in
    match r with
    | Ok a => let (sent', r') := f a http in ((sent ++ sent')%list, r')
    | Raise e => (sent, Raise e)
    end.

(** [self._http.request(method, path, json=...)] on [httpx.Client]. *)
Definition request (req : Request) : io Response :=
  fun http => ([req], http req).

(** Calls that may suspend: a coroutine runs until it returns, raises, or
    awaits the response to a request, where it hands control back with the
    rest of itself as the continuation. *)
Inductive task (A : Type) : Type :=
| Return (a : A)
| Throw (e : exn)
| Await (req : Request) (k : Response -> task A).
Arguments Return {A} a.
Arguments Throw {A} e.
Arguments Await {A} req k.

Definition tlift {A} (r : result A) : task A :=
  match r with Ok a => Return a | Raise e => Throw e end.

Fixpoint tbind {A B} (m : task A) (f : A -> task B) : task B :=
  match m with
  | Return a => f a
  | Throw e => Throw e
  | Await req k => Await req (fun res => tbind (k res) f)
  end.

(** [await self._http.request(method, path, json=...)] on
    [httpx.AsyncClient]. *)
Definition arequest (req : Request) : task Response := Await req Return.

(** The event loop driving one coroutine to completion over a connection:
    at each suspension the request goes out and the coroutine is resumed
    with the response.  When httpx raises instead, the exception ends the
    coroutine: nothing in the SDK catches an exception. *)
Fixpoint run {A} (m : task A) : io A :=
  fun http =>
    match m with
    | Return a => ([], Ok a)
    | Throw e => ([], Raise e)
    | Await req k =>
        match http req with
        | Ok res => let (sent, r) := run (k res) http in (req :: sent, r)
        | Raise e => ([req], Raise e)
        end
    end.

End Http.
Import Http.

Declare Scope io_scope.
Delimit Scope io_scope with io.
Notation "x <- c ;; k" := (Http.bind c (fun x => k))
(at level 61, c at next level, right associativity) : io_scope.
Notation "c ;; k" := (Http.bind c (fun _ => k))
(at level 61, right associativity) : io_scope.

Declare Scope task_scope.
Delimit Scope task_scope with task.
Notation "x <- c ;; k" := (Http.tbind c (fun x => k))
(at level 61, c at next level, right associativity) : task_scope.
Notation "c ;; k" := (Http.tbind c (fun _ => k))
(at level 61, right associativity) : task_scope.

(** [str(x)] as an f-string applies it: a string is itself.  How Python
    prints the other values (floats, lists, dicts) is a parameter. *)
Class Format : Type := { str_other : json -> string }.

Definition format {F : Format} (x : json) : string :=
  match x with
  | JStr s => s
  | _ => str_other x
  end.

(* ================================================================= *)
(** ** session.py *)

(** A session holds its identifier and the client that created it, of
    which it uses the [_request] method only. *)
Module Session.
Import Types.
Local Open Scope io_scope.

Record t : Type := {
  _client : string -> string -> option json -> io Response;
  session_id : json
}.

Definition _request (self : t) (method path : string) (json : option json)
  : io Response :=
  _client self method path json.

Definition parse {L : Lax} {F : Format} (self : t) (message : string)
    (provider : option string) : io IntentGraph.t :=
  let body := [("message", JStr message)] in
  let body := match provider with
              | Some p => dict_set "provider" (JStr p) body
              | None => body
              end in
  res <- _request self "POST"
           ("/v1/sessions/" ++ format (session_id self) ++ "/parse")
           (Some (JObj body)) ;;
  data <- lift (res_json res) ;;
  g <- lift (Py.get data "graph" data) ;;
  kw <- lift (Py.kwargs g) ;;
  lift (IntentGraph.validate kw).

Definition update {F : Format} (self : t) (response : string)
    (role : option string) : io unit :=
  let role := match role with Some r => r | None => "assistant" end in
  _request self "POST"
    ("/v1/sessions/" ++ format (session_id self) ++ "/update")
    (Some (JObj [("response", JStr response); ("role", JStr role)])) ;;
  ret tt.

Definition check_drift {L : Lax} {F : Format} (self : t) : io DriftReport.t :=
  res <- _request self "GET"
           ("/v1/sessions/" ++ format (session_id self) ++ "/drift") None ;;
  data <- lift (res_json res) ;;
  kw <- lift (Py.kwargs data) ;;
  lift (DriftReport.validate kw).

Definition get_graph {L : Lax} {F : Format} (self : t) : io IntentGraph.t :=
  res <- _request self "GET"
           ("/v1/sessions/" ++ format (session_id self) ++ "/graph") None ;;
  data <- lift (res_json res) ;;
  g <- lift (Py.get data "graph" data) ;;
  kw <- lift (Py.kwargs g) ;;
  lift (IntentGraph.validate kw).

Definition end_ {F : Format} (self : t) : io unit :=
  _request self "POST"
    ("/v1/sessions/" ++ format (session_id self) ++ "/end")
    (Some (JObj [])) ;;
  ret tt.

End Session.

Module AsyncSession.
Import Types.
Local Open Scope task_scope.

Record t : Type := {
  _client : string -> string -> option json -> task Response;
  session_id : json
}.

Definition _request (self : t) (method path : string) (json : option json)
  : task Response :=
  _client self method path json.

Definition parse {L : Lax} {F : Format} (self : t) (message : string)
    (provider : option string) : task IntentGraph.t :=
  let body := [("message", JStr message)] in
  let body := match provider with
              | Some p => dict_set "provider" (JStr p) body
              | None => body
              end in
  res <- _request self "POST"
           ("/v1/sessions/" ++ format (session_id self) ++ "/parse")
           (Some (JObj body)) ;;
  data <- tlift (res_json res) ;;
  g <- tlift (Py.get data "graph" data) ;;
  kw <- tlift (Py.kwargs g) ;;
  tlift (IntentGraph.validate kw).

Definition update {F : Format} (self : t) (response : string)
    (role : option string) : task unit :=
  let role := match role with Some r => r | None => "assistant" end in
  _request self "POST"
    ("/v1/sessions/" ++ format (session_id self) ++ "/update")
    (Some (JObj [("response", JStr response); ("role", JStr role)])) ;;
  Return tt.

Definition check_drift {L : Lax} {F : Format} (self : t)
  : task DriftReport.t :=
  res <- _request self "GET"
           ("/v1/sessions/" ++ format (session_id self) ++ "/drift") None ;;
  data <- tlift (res_json res) ;;
  kw <- tlift (Py.kwargs data) ;;
  tlift (DriftReport.validate kw).

Definition get_graph {L : Lax} {F : Format} (self : t) : task IntentGraph.t :=
  res <- _request self "GET"
           ("/v1/sessions/" ++ format (session_id self) ++ "/graph") None ;;
  data <- tlift (res_json res) ;;
  g <- tlift (Py.get data "graph" data) ;;
  kw <- tlift (Py.kwargs g) ;;
  tlift (IntentGraph.validate kw).

Definition end_ {F : Format} (self : t) : task unit :=
  _request self "POST"
    ("/v1/sessions/" ++ format (session_id self) ++ "/end")
    (Some (JObj [])) ;;
  Return tt.

End AsyncSession.

(* ================================================================= *)
(** ** client.py *)

Module Client.
Import Types.
Local Open Scope io_scope.

(** [XeroML._request]: a response that is not a success goes through
    [raise_for_status] with its status and decoded body. *)
Definition _request (method path : string) (json : option json)
  : io Response :=
  res <- request {| method := method; path := path; json_kw := json |} ;;
  (if negb (is_success res) then
     body <- lift (res_json res) ;;
     lift (Errors.raise_for_status (status_code res) body)
   else ret tt) ;;
  ret res.

Definition parse {L : Lax} (message : string) (provider : option string)
  : io IntentGraph.t :=
  let body := [("message", JStr message)] in
  let body := match provider with
              | Some p => dict_set "provider" (JStr p) body
              | None => body
              end in
  res <- _request "POST" "/v1/parse" (Some (JObj body)) ;;
  data <- lift (res_json res) ;;
  g <- lift (Py.get data "graph" data) ;;
  kw <- lift (Py.kwargs g) ;;
  lift (IntentGraph.validate kw).

Definition create_session (session_id : option string) : io Session.t :=
  let body := [] in
  let body := match session_id with
              | Some s => dict_set "session_id" (JStr s) body
              | None => body
              end in
  res <- _request "POST" "/v1/sessions" (Some (JObj body)) ;;
  data <- lift (res_json res) ;;
  sid <- lift (Py.getitem data "session_id") ;;
  ret {| Session._client := _request; Session.session_id := sid |}.

Definition list_sessions {L : Lax} : io (list SessionInfo.t) :=
  res <- _request "GET" "/v1/sessions" None ;;
  data <- lift (res_json res) ;;
  default <- lift (res_json res) ;;
  sessions <- lift (Py.get data "sessions" default) ;;
  items <- lift (Py.iter sessions) ;;
  lift (Py.comprehension
          (fun s => (kw <- Py.kwargs s ;; SessionInfo.validate kw)%py) items).

Definition get_usage {L : Lax} : io UsageInfo.t :=
  res <- _request "GET" "/v1/usage" None ;;
  data <- lift (res_json res) ;;
  kw <- lift (Py.kwargs data) ;;
  lift (UsageInfo.validate kw).

End Client.

(* ================================================================= *)
(** ** async_client.py *)

Module AsyncClient.
Import Types.
Local Open Scope task_scope.

Definition _request (method path : string) (json : option json)
  : task Response :=
  res <- arequest {| method := method; path := path; json_kw := json |} ;;
  (if negb (is_success res) then
     body <- tlift (res_json res) ;;
     tlift (Errors.raise_for_status (status_code res) body)
   else Return tt) ;;
  Return res.

Definition parse {L : Lax} (message : string) (provider : option string)
  : task IntentGraph.t :=
  let body := [("message", JStr message)] in
  let body := match provider with
              | Some p => dict_set "provider" (JStr p) body
              | None => body
              end in
  res <- _request "POST" "/v1/parse" (Some (JObj body)) ;;
  data <- tlift (res_json res) ;;
  g <- tlift (Py.get data "graph" data) ;;
  kw <- tlift (Py.kwargs g) ;;
  tlift (IntentGraph.validate kw).

Definition create_session (session_id : option string)
  : task AsyncSession.t :=
  let body := [] in
  let body := match session_id with
              | Some s => dict_set "session_id" (JStr s) body
              | None => body
              end in
  res <- _request "POST" "/v1/sessions" (Some (JObj body)) ;;
  data <- tlift (res_json res) ;;
  sid <- tlift (Py.getitem data "session_id") ;;
  Return {| AsyncSession._client := _request;
            AsyncSession.session_id := sid |}.

Definition list_sessions {L : Lax} : task (list SessionInfo.t) :=
  res <- _request "GET" "/v1/sessions" None ;;
  data <- tlift (res_json res) ;;
  default <- tlift (res_json res) ;;
  sessions <- tlift (Py.get data "sessions" default) ;;
  items <- tlift (Py.iter sessions) ;;
  tlift (Py.comprehension
           (fun s => (kw <- Py.kwargs s ;; SessionInfo.validate kw)%py) items).

Definition get_usage {L : Lax} : task UsageInfo.t :=
  res <- _request "GET" "/v1/usage" None ;;
  data <- tlift (res_json res) ;;
  kw <- tlift (Py.kwargs data) ;;
  tlift (UsageInfo.validate kw).

End AsyncClient.

(* ================================================================= *)
(** ** __init__.py and the import of the package *)

(** The top level of each module of the package, reduced to what decides
    whether importing it succeeds: the import statements and the names the
    other statements bind.  Relative module names are written resolved
    ([.types] is [xeroml.types]). *)
Module Package.

#[local] Unset Elimination Schemes.
Inductive stmt : Type :=
| Import (m : string)                            (* import m *)
| FromImport (m : string) (names : list string)  (* from m import a, b *)
| Bind (name : string)                           (* class, def or assignment *)
| IfTypeChecking (body : list stmt)              (* if TYPE_CHECKING: ... *).
#[local] Set Elimination Schemes.

Definition errors_py : list stmt :=
  [ FromImport "__future__" ["annotations"];
    FromImport "typing" ["Any"];
    Bind "XeroMLError";
    Bind "InvalidAPIKeyError";
    Bind "CreditsExhaustedError";
    Bind "RateLimitedError";
    Bind "ParseFailedError";
    Bind "SessionNotFoundError";
    Bind "SessionEndedError";
    Bind "_ERROR_MAP";
    Bind "raise_for_status" ].

Definition types_py : list stmt :=
  [ FromImport "__future__" ["annotations"];
    FromImport "pydantic" ["BaseModel"; "Field"];
    Bind "LatentStates";
    Bind "IntentMeta";
    Bind "SubGoal";
    Bind "IntentGraph";
    Bind "ParseResponse";
    Bind "DriftReport";
    Bind "SessionInfo";
    Bind "CreditInfo";
    Bind "UsageMonth";
    Bind "UsageInfo" ].

Definition session_py : list stmt :=
  [ FromImport "__future__" ["annotations"];
    FromImport "typing" ["TYPE_CHECKING"];
    Import "httpx";
    FromImport "xeroml.types" ["DriftReport"; "IntentGraph"];
    IfTypeChecking
      [ FromImport "xeroml.async_client" ["AsyncXeroML"];
        FromImport "xeroml.client" ["XeroML"] ];
    Bind "Session";
    Bind "AsyncSession" ].

Definition client_py : list stmt :=
  [ FromImport "__future__" ["annotations"];
    Import "httpx";
    FromImport "xeroml.errors" ["raise_for_status"];
    FromImport "xeroml.session" ["Session"];
    FromImport "xeroml.types" ["IntentGraph"; "SessionInfo"; "UsageInfo"];
    Bind "XeroML" ].

Definition async_client_py : list stmt :=
  [ FromImport "__future__" ["annotations"];
    Import "httpx";
    FromImport "xeroml.errors" ["raise_for_status"];
    FromImport "xeroml.session" ["AsyncSession"];
    FromImport "xeroml.types" ["IntentGraph"; "SessionInfo"; "UsageInfo"];
    Bind "AsyncXeroML" ].

Definition init_py : list stmt :=
  [ FromImport "xeroml.async_client" ["AsyncXeroML"];
    FromImport "xeroml.client" ["XeroML"];
    FromImport "xeroml.errors"
      [ "CreditsExhaustedError"; "InvalidAPIKeyError"; "ParseFailedError";
        "RateLimitedError"; "SessionEndedError"; "SessionNotFoundError";
        "XeroMLError" ];
    FromImport "xeroml.session" ["AsyncSession"; "Session"];
    FromImport "xeroml.types"
      [ "CreditInfo"; "DriftEvent"; "DriftReport"; "GraphTurn"; "IntentGraph";
        "IntentMeta"; "LatentStates"; "ParseResponse";
        "SessionHistoryResponse"; "SessionInfo"; "SubGoal"; "UsageInfo";
        "UsageMonth" ];
    Bind "__all__" ].

(** The modules of the repository, by dotted name. *)
Definition source (m : string) : option (list stmt) :=
  if String.eqb m "xeroml" then Some init_py
  else if String.eqb m "xeroml.errors" then Some errors_py
  else if String.eqb m "xeroml.types" then Some types_py
  else if String.eqb m "xeroml.session" then Some session_py
  else if String.eqb m "xeroml.client" then Some client_py
  else if String.eqb m "xeroml.async_client" then Some async_client_py
  else None.

(** The names a module has bound: its namespace. *)
Definition namespace : Type := string -> bool.

Definition bound (names : list string) : namespace :=
  fun n => existsb (String.eqb n) names.

(** Everything outside the repository (the standard library, httpx,
    pydantic): for each module name, whether it is installed and which names
    it exports. *)
Definition site : Type := string -> option namespace.

(** The package a dotted module name lies in: [xeroml] for [xeroml.types],
    none for [xeroml]. *)
Fixpoint parent_of (m : string) : option string :=
  match m with
  | EmptyString => None
  | String c rest =>
      match parent_of rest with
      | Some p => Some (String c p)
      | None => if Ascii.eqb c "." then Some EmptyString else None
      end
  end.

(** The modules whose top level is running, innermost first, each with the
    names it has bound so far: what [sys.modules] holds of them.  (A module
    that has finished is not kept: running its top level again gives the
    same namespace, or the same exception.) *)
Definition in_progress : Type := list (string * list string).

Fixpoint running (m : string) (stack : in_progress) : option (list string) :=
  match stack with
  | [] => None
  | (m', names) :: rest =>
      if String.eqb m m' then Some names else running m rest
  end.

(** Importing module [m].  A module that is already running is handed out
    as it stands.  Otherwise the package the module lies in is imported
    first, unless it is running: its [__init__.py] runs to the end, and an
    exception there ends the import.  Then the top level of [m] runs
    statement by statement; an import statement imports its module and, for
    [from ... import], looks each name up in the namespace that module ended
    with.  The first exception ends everything.  [fuel] bounds the nesting
    of imports; [None] means it ran out. *)
Fixpoint import_module (env : site) (fuel : nat) (stack : in_progress)
    (m : string) : option (result namespace) :=
  match fuel with
  | O => None
  | S fuel =>
      match running m stack with
      | Some names => Some (Ok (bound names))
      | None =>
          let load :=
            match source m with
            | None =>
                match env m with
                | Some ns => Some (Ok ns)
                | None => Some (Raise (ModuleNotFoundError m))
                end
            | Some body =>
                (fix exec (body : list stmt) (names : list string)
                   : option (result namespace) :=
                   match body with
                   | [] => Some (Ok (bound names))
                   | Import m' :: rest =>
                       match import_module env fuel ((m, names) :: stack)
                               m' with
                       | None => None
                       | Some (Raise e) => Some (Raise e)
                       | Some (Ok _) => exec rest (m' :: names)
                       end
                   | FromImport m' wanted :: rest =>
                       match import_module env fuel ((m, names) :: stack)
                               m' with
                       | None => None
                       | Some (Raise e) => Some (Raise e)
                       | Some (Ok ns) =>
                           match find (fun n => negb (ns n)) wanted with
                           | Some n => Some (Raise (ImportError n m'))
                           | None => exec rest (wanted ++ names)%list
                           end
                       end
                   | Bind n :: rest => exec rest (n :: names)
                   | IfTypeChecking _ :: rest => exec rest names
                   end) body []
            end in
          match parent_of m with
          | None => load
          | Some p =>
              match running p stack with
              | Some _ => load
              | None =>
                  match import_module env fuel stack p with
                  | None => None
                  | Some (Raise e) => Some (Raise e)
                  | Some (Ok _) => load
                  end
              end
          end
      end
  end.

(** [import xeroml], as the first statement of any program using the SDK. *)
Definition import_xeroml (env : site) (fuel : nat) : option (result namespace) :=
  import_module env fuel [] "xeroml".

(** The modules of the package: what a program can name to reach the SDK. *)
Definition package_modules : list string :=
  [ "xeroml"; "xeroml.errors"; "xeroml.types"; "xeroml.session";
    "xeroml.client"; "xeroml.async_client" ].

(** A site where every external module is installed and exports every name
    asked of it. *)
Definition complete_site : site := fun _ => Some (fun _ => true).

End Package.

(* ================================================================= *)
(** ** Vocabulary of the specification *)

Module Spec.

(** The table of section 4.1, in the order the specification lists it. *)
Definition table_4_1 : list (Z * error_class) :=
  [ (401, InvalidAPIKeyError);
    (402, CreditsExhaustedError);
    (422, ParseFailedError);
    (429, RateLimitedError);
    (404, SessionNotFoundError);
    (409, SessionEndedError) ].

(** An error body, as sections 4.1 and 6 describe it: a mapping that either
    carries the fields [code], [message], [details] itself or nests them in
    an object under [error].  [error_fields] is the mapping that carries
    the fields; it is [None] for anything that is not an error body. *)
Definition error_fields (body : json) : option dict :=
  match body with
  | JObj d =>
      match dict_get "error" d with
      | None => Some d
      | Some (JObj nested) => Some nested
      | Some _ => None
      end
  | _ => None
  end.

(** [d.get(k, default)] on the entries of a dict. *)
Definition get_or (k : string) (default : json) (d : dict) : json :=
  match dict_get k d with
  | Some v => v
  | None => default
  end.

(** The value of a JSON number, for a field that is "present with the
    correct numeric type". *)
Definition number (v : json) : option Q :=
  match v with
  | JFloat q => Some q
  | JInt z => Some (inject_Z z)
  | _ => None
  end.

(** A field constrained to a fixed vocabulary: a payload whose value for it
    is anything but one of the words is rejected, and what validation lets
    through is one of the words; a value that is present is the one the
    model keeps; and a valid payload stays valid, holding the new word,
    whichever word of the vocabulary the field is set to. *)
Definition enumerated {M} (validate : dict -> result M) (name : string)
    (proj : M -> string) (words : list string) : Prop :=
  (forall d x, dict_get name d = Some x ->
               (forall s, x = JStr s -> ~ In s words) ->
               validate d = Raise ValidationError)
  /\ (forall d m, validate d = Ok m -> In (proj m) words)
  /\ (forall d m x, validate d = Ok m -> dict_get name d = Some x ->
                    x = JStr (proj m))
  /\ (forall d m w, validate d = Ok m -> In w words ->
                    exists m', validate (dict_set name (JStr w) d) = Ok m'
                               /\ proj m' = w).

(** A field with a declared default: absent from the payload it takes the
    default and is no cause of rejection ([x] is whatever value would make
    the payload valid if it were present); present with a value its
    validator [check] rejects, the payload is rejected; present in a valid
    payload, the field holds what [check] makes of the value that is
    there, not the default; and a valid payload stays valid, holding the
    new value, whatever value [check] accepts the field is set to. *)
Definition defaulted {M A} (validate : dict -> result M) (name : string)
    (proj : M -> A) (check : json -> result A) (default : A) : Prop :=
  (forall d m, dict_get name d = None -> validate d = Ok m ->
               proj m = default)
  /\ (forall d x m, dict_get name d = None ->
                    validate (dict_set name x d) = Ok m ->
                    exists m', validate d = Ok m')
  /\ (forall d x e, dict_get name d = Some x -> check x = Raise e ->
                    validate d = Raise ValidationError)
  /\ (forall d x m, dict_get name d = Some x -> validate d = Ok m ->
                    check x = Ok (proj m))
  /\ (forall d x a m, validate d = Ok m -> check x = Ok a ->
                      exists m', validate (dict_set name x d) = Ok m'
                                 /\ proj m' = a).

(** A payload that holds the string [s] under [name], and one that has no
    entry for [name]. *)
Definition has_str (d : dict) (name s : string) : Prop :=
  dict_get name d = Some (JStr s).

Definition lacks (d : dict) (name : string) : Prop :=
  dict_get name d = None.

(** A field with a closed range: present as a number outside [lo, hi] the
    payload is rejected; set to a float inside it, bounds included, a valid
    payload stays valid and the field holds that float. *)
Definition ranged {M} (validate : dict -> result M) (name : string)
    (proj : M -> Q) (lo hi : Q) : Prop :=
  (forall d v q, dict_get name d = Some v -> number v = Some q ->
                 ~ (lo <= q <= hi)%Q ->
                 validate d = Raise ValidationError)
  /\ (forall d m q, validate d = Ok m -> (lo <= q <= hi)%Q ->
                    exists m', validate (dict_set name (JFloat q) d) = Ok m'
                               /\ proj m' = q).

(** A connection that answers every request with one response. *)
Definition answering (status : Z) (body : json) : Transport :=
  fun _ => Ok {| status_code := status; content := Some body |}.

(** Section 4.2: the typed model layer fails with ValidationFailed and
    nothing else. *)
Definition only_invalid {A} (r : result A) : Prop :=
  forall e, r = Raise e -> e = ValidationError.

(** The unwrap rule of section 4.2 for an operation that returns a graph:
    over a connection answering with the wrapper, and over one answering
    with the graph object itself, the result is what the [IntentGraph]
    model makes of the graph object. *)
Definition decodes_graph {L : Types.Lax} (op : io Types.IntentGraph.t)
    (status : Z) (wrapper graph : dict) : Prop :=
  snd (op (answering status (JObj wrapper))) = Types.IntentGraph.validate graph
  /\ snd (op (answering status (JObj graph))) = Types.IntentGraph.validate graph.

(** [res.is_success] for a status, as section 4.3 puts it. *)
Definition success (status : Z) : Prop := 200 <= status < 300.

(** The body of a parse request, as sections 4.4 and 6 describe it:
    [{message, provider?}], the provider left out when there is none. *)
Definition parse_request_body (message : string) (provider : option string)
  : dict :=
  match provider with
  | None => [("message", JStr message)]
  | Some p => [("message", JStr message); ("provider", JStr p)]
  end.

(** A blocking session and a suspending one that stand for the same
    session: the same identifier, each bound to the [_request] of its own
    kind of client. *)
Definition paired (a : AsyncSession.t) (s : Session.t) : Prop :=
  AsyncSession.session_id a = Session.session_id s
  /\ AsyncSession._client a = AsyncClient._request
  /\ Session._client s = Client._request.

(** Two calls that sent the same requests and ended alike: with paired
    sessions, or with the same exception. *)
Definition paired_outcomes (a : list Request * result AsyncSession.t)
    (s : list Request * result Session.t) : Prop :=
  fst a = fst s
  /\ match snd a, snd s with
     | Ok a', Ok s' => paired a' s'
     | Raise e, Raise e' => e = e'
     | _, _ => False
     end.

End Spec.

(* ================================================================= *)
(** ** Data of the test suite *)

Module Samples.
Import Types.

(** The two parameters at their plainest: no coercion of foreign values,
    and a fixed text for values that are not strings. *)
Definition native_only : Lax :=
  {| lax_float := fun _ => None;
     lax_int := fun _ => None;
     lax_bool := fun _ => None |}.

Definition opaque_format : Format := {| str_other := fun _ => "?" |}.

(** [SAMPLE_GRAPH], with its nested objects named. *)
Definition SAMPLE_SUB_GOAL : dict :=
  [ ("id", JStr "sg_001");
    ("goal", JStr "Add OAuth2 support");
    ("status", JStr "pending");
    ("priority", JFloat (9 # 10));
    ("success_criteria", JArr [JStr "OAuth2 flow works"]);
    ("constraints", JArr []);
    ("uncertainty", JFloat (3 # 10));
    ("context_requirements", JArr []);
    ("modality", JStr "code");
    ("dependencies", JArr []);
    ("children", JArr []) ].

Definition SAMPLE_LATENT_STATES : dict :=
  [ ("goal_intent", JStr "refactoring");
    ("action_readiness", JStr "executing");
    ("ambiguity_level", JStr "clear");
    ("risk_sensitivity", JStr "medium");
    ("intent_scope", JStr "compound") ].

Definition SAMPLE_META : dict :=
  [ ("source", JStr "user_input");
    ("confidence", JFloat (85 # 100));
    ("negotiation_history", JArr []);
    ("latent_states", JObj SAMPLE_LATENT_STATES) ].

Definition SAMPLE_GRAPH : dict :=
  [ ("schema_version", JStr "0.1.0");
    ("root_goal", JStr "Refactor auth module");
    ("sub_goals", JArr [JObj SAMPLE_SUB_GOAL]);
    ("meta", JObj SAMPLE_META) ].

Definition SAMPLE_PARSE_RESPONSE : dict :=
    [ ("graph", JObj SAMPLE_GRAPH);
      ("request_id", JStr "req_abc123");
      ("latency_ms", JInt 150) ].

Definition SAMPLE_DRIFT_RESPONSE : dict :=
    [ ("detected", JBool true);
      ("drift_type", JStr "scope_creep");
      ("severity", JFloat (6 # 10));
      ("description", JStr "User added new requirement");
      ("previous_goal", JStr "Refactor auth");
      ("current_goal", JStr "Refactor auth + add payments") ].

(** The session object of [test_list_sessions]. *)
Definition session_s1 : dict :=
    [ ("session_id", JStr "s1");
      ("status", JStr "active");
      ("turn_count", JInt 2);
      ("created_at", JStr "2026-01-01T00:00:00Z");
      ("updated_at", JStr "2026-01-01T00:01:00Z") ].

(** The body of [test_credits_exhausted]. *)
Definition credits_exhausted_body : json :=
  JObj
    [ ("error",
        JObj
          [ ("code", JStr "credits_exhausted");
            ("message", JStr "All 100 credits used.");
            ("status", JInt 402);
            ("details",
              JObj [("credits_used", JInt 100); ("credits_total", JInt 100)]) ]) ].

(** The fields of the body of [test_session_ended]. *)
Definition session_ended_fields : dict :=
  [ ("code", JStr "session_ended");
    ("message", JStr "Already ended");
    ("status", JInt 409) ].

End Samples.

(* ================================================================= *)
(** ** Vocabulary for the behaviour of the code beyond the specification *)

Module Props.
Import Types.

(** A connection on which httpx raises, and one that answers with a body
    that may fail to be JSON. *)
Definition raising (e : exn) : Transport := fun _ => Raise e.

Definition answering_raw (status : Z) (content : option json) : Transport :=
  fun _ => Ok {| status_code := status; content := content |}.

Definition ends_in {A} (e : exn) (outcome : list Request * result A) : Prop :=
  snd outcome = Raise e.

(** All eighteen operations, blocking and suspending, end in [e]. *)
Definition every_operation_ends_in {L : Lax} {F : Format} (e : exn)
    (http : Transport) (a : AsyncSession.t) (s : Session.t) : Prop :=
  (forall message provider,
     ends_in e (Client.parse message provider http)
     /\ ends_in e (run (AsyncClient.parse message provider) http))
  /\ (forall session_id,
        ends_in e (Client.create_session session_id http)
        /\ ends_in e (run (AsyncClient.create_session session_id) http))
  /\ (ends_in e (Client.list_sessions http)
      /\ ends_in e (run AsyncClient.list_sessions http))
  /\ (ends_in e (Client.get_usage http)
      /\ ends_in e (run AsyncClient.get_usage http))
  /\ (forall message provider,
        ends_in e (Session.parse s message provider http)
        /\ ends_in e (run (AsyncSession.parse a message provider) http))
  /\ (forall response role,
        ends_in e (Session.update s response role http)
        /\ ends_in e (run (AsyncSession.update a response role) http))
  /\ (ends_in e (Session.check_drift s http)
      /\ ends_in e (run (AsyncSession.check_drift a) http))
  /\ (ends_in e (Session.get_graph s http)
      /\ ends_in e (run (AsyncSession.get_graph a) http))
  /\ (ends_in e (Session.end_ s http)
      /\ ends_in e (run (AsyncSession.end_ a) http)).

(** The field names each model declares. *)
Definition LatentStates_fields : list string :=
  ["goal_intent"; "action_readiness"; "ambiguity_level"; "risk_sensitivity";
   "intent_scope"].
Definition IntentMeta_fields : list string :=
  ["source"; "confidence"; "negotiation_history"; "latent_states"].
Definition SubGoal_fields : list string :=
  ["id"; "goal"; "status"; "priority"; "success_criteria"; "constraints";
   "uncertainty"; "context_requirements"; "modality"; "dependencies";
   "children"].
Definition IntentGraph_fields : list string :=
  ["schema_version"; "root_goal"; "sub_goals"; "meta"].
Definition ParseResponse_fields : list string :=
  ["graph"; "session_id"; "request_id"; "latency_ms"].
Definition DriftReport_fields : list string :=
  ["detected"; "drift_type"; "severity"; "description"; "previous_goal";
   "current_goal"].
Definition SessionInfo_fields : list string :=
  ["session_id"; "status"; "turn_count"; "created_at"; "updated_at"].
Definition CreditInfo_fields : list string := ["used"; "total"; "remaining"].
Definition UsageMonth_fields : list string :=
  ["month"; "parse_calls"; "drift_checks"; "session_creates";
   "total_latency_ms"].
Definition UsageInfo_fields : list string :=
  ["credits"; "tier"; "rate_limit"; "usage"].

(** A field without a default: a payload that lacks it is rejected. *)
Definition required_field {M} (validate : dict -> result M) (name : string)
  : Prop :=
  forall d, dict_get name d = None -> validate d = Raise ValidationError.

(** A model that ignores what it does not declare: setting a key that is
    none of its fields changes nothing. *)
Definition ignores_unknown {M} (validate : dict -> result M)
    (fields : list string) : Prop :=
  forall d k v, ~ In k fields -> validate (dict_set k v d) = validate d.

(** The constraints of [SubGoal], at every depth of the tree. *)
Fixpoint SubGoal_well_formed (g : SubGoal.t) : Prop :=
  match g with
  | SubGoal.Build _ _ status priority _ _ uncertainty _ _ _ children =>
      In status SubGoal.status_words
      /\ (0 <= priority <= 1)%Q
      /\ (0 <= uncertainty <= 1)%Q
      /\ (fix all (l : list SubGoal.t) : Prop :=
            match l with
            | [] => True
            | c :: r => SubGoal_well_formed c /\ all r
            end) children
  end.

Definition LatentStates_well_formed (ls : LatentStates.t) : Prop :=
  In (LatentStates.action_readiness ls) LatentStates.action_readiness_words
  /\ In (LatentStates.ambiguity_level ls) LatentStates.ambiguity_level_words
  /\ In (LatentStates.risk_sensitivity ls)
       LatentStates.risk_sensitivity_words
  /\ In (LatentStates.intent_scope ls) LatentStates.intent_scope_words.

Definition IntentGraph_well_formed (g : IntentGraph.t) : Prop :=
  (0 <= IntentMeta.confidence (IntentGraph.meta g) <= 1)%Q
  /\ LatentStates_well_formed (IntentMeta.latent_states (IntentGraph.meta g))
  /\ Forall SubGoal_well_formed (IntentGraph.sub_goals g).

(** What the two ways of reading a success body make of it: the keyword
    arguments of the model are [data.get("graph", data)], or [data] itself. *)
Definition unwrap_graph {L : Lax} (body : json) : result IntentGraph.t :=
  match body with
  | JObj d =>
      match dict_get "graph" d with
      | None => IntentGraph.validate d
      | Some (JObj g) => IntentGraph.validate g
      | Some _ => Raise TypeError
      end
  | _ => Raise AttributeError
  end.

Definition construct_from {A} (validate : dict -> result A) (body : json)
  : result A :=
  match body with
  | JObj d => validate d
  | _ => Raise TypeError
  end.

End Props.

(* ================================================================= *)
(** ** The classifier (errors.py) *)

Import Spec.

Lemma map_get_table (status : Z) (c : error_class) :
  In (status, c) table_4_1 ->
  Errors.map_get status Errors._ERROR_MAP XeroMLError = c.
Proof.
  unfold table_4_1; simpl; intros H.
  repeat (destruct H as [H | H]; [injection H as <- <-; reflexivity | ]).
  contradiction.
Qed.

Lemma map_get_other (status : Z) :
  ~ In status (map fst table_4_1) ->
  Errors.map_get status Errors._ERROR_MAP XeroMLError = XeroMLError.
Proof.
  unfold table_4_1; simpl; intros H.
  repeat match goal with
         | |- context [Z.eqb status ?k] =>
             destruct (Z.eqb_spec status k); [exfalso; apply H; subst; tauto | ]
         end.
  reflexivity.
Qed.

Lemma table_classes_are_subclasses (status : Z) (c : error_class) :
  In (status, c) table_4_1 ->
  exists code default,
    Errors.subclass_fields c = Some (code, status, default).
Proof.
  unfold table_4_1; simpl; intros H.
  repeat (destruct H as [H | H];
          [injection H as <- <-; simpl; eauto | ]).
  contradiction.
Qed.

(** What [raise_for_status] does on an error body, in one equation: the
    three [.get] calls read the mapping that carries the fields. *)
Lemma raise_for_status_on_fields (status : Z) (body : json) (d : dict) :
  error_fields body = Some d ->
  Errors.raise_for_status status body =
    let message := get_or "message" (JStr "Unknown error") d in
    let details := get_or "details" JNull d in
    let error_cls := Errors.map_get status Errors._ERROR_MAP XeroMLError in
    if Errors.is_XeroMLError error_cls then
      Raise (ApiError
               (Errors.XeroMLError_init XeroMLError
                  (get_or "code" (JStr "unknown") d) status message
                  (Some details)))
    else
      (e <- Errors.construct error_cls (Some message) (Some details) ;;
       Raise (ApiError e)).
Proof.
  unfold error_fields, Errors.raise_for_status, get_or.
  destruct body as [ | | | | | | top]; try discriminate.
  simpl. destruct (dict_get "error" top) as [nested | ] eqn:E.
  - destruct nested; try discriminate.
    intros [= ->]. reflexivity.
  - intros [= ->]. reflexivity.
Qed.

(** C1.  For every status of the table of section 4.1 and every error body,
    [raise_for_status] raises an instance of exactly the mapped class, with
    the class's fixed code string and the status of the table; for every
    other status it raises a plain [XeroMLError] with that status and the
    [code] of the body, or ["unknown"] when the body has none. *)
Theorem raise_for_status_classifies (status : Z) (body : json) (d : dict) :
  error_fields body = Some d ->
  (forall c, In (status, c) table_4_1 ->
     exists e, Errors.raise_for_status status body = Raise (ApiError e)
               /\ cls e = c
               /\ option_map JStr (Errors.fixed_code c) = Some (code e)
               /\ Errors.fixed_status c = Some status
               /\ Py.status e = status)
  /\ (~ In status (map fst table_4_1) ->
      exists e, Errors.raise_for_status status body = Raise (ApiError e)
                /\ cls e = XeroMLError
                /\ Py.status e = status
                /\ (forall c, dict_get "code" d = Some c -> code e = c)
                /\ (dict_get "code" d = None -> code e = JStr "unknown")).
Proof.
  intros Hd. rewrite (raise_for_status_on_fields status body d Hd). split.
  - intros c Hc.
    rewrite (map_get_table status c Hc).
    destruct (table_classes_are_subclasses status c Hc) as (k & dm & Hf).
    unfold Errors.construct, Errors.fixed_code, Errors.fixed_status.
    rewrite Hf. simpl.
    assert (Errors.is_XeroMLError c = false) as ->
        by (destruct c; [discriminate Hf | reflexivity ..]).
    eexists; repeat split; reflexivity.
  - intros Hn. rewrite (map_get_other status Hn). simpl.
    eexists; repeat split; try reflexivity; simpl; unfold get_or.
    + intros c ->. reflexivity.
    + intros ->. reflexivity.
Qed.

Lemma raise_for_status_classifies_witness :
  error_fields Samples.credits_exhausted_body
    = Some [ ("code", JStr "credits_exhausted");
             ("message", JStr "All 100 credits used.");
             ("status", JInt 402);
             ("details",
               JObj [("credits_used", JInt 100); ("credits_total", JInt 100)]) ]
  /\ In (402, CreditsExhaustedError) table_4_1
  /\ exists e,
       Errors.raise_for_status 402 Samples.credits_exhausted_body
         = Raise (ApiError e)
       /\ cls e = CreditsExhaustedError
       /\ option_map JStr (Errors.fixed_code CreditsExhaustedError)
            = Some (code e)
       /\ Errors.fixed_status CreditsExhaustedError = Some 402
       /\ Py.status e = 402.
Proof.
  split; [reflexivity | ].
  split; [simpl; tauto | ].
  apply (proj1 (raise_for_status_classifies 402
                  Samples.credits_exhausted_body _ eq_refl)).
  simpl; tauto.
Defined.

(** The scenarios of section 8 on the classifier, evaluated. *)
Example credits_exhausted_scenario :
  Errors.raise_for_status 402 Samples.credits_exhausted_body
    = Raise (ApiError
               {| cls := CreditsExhaustedError;
                  code := JStr "credits_exhausted";
                  status := 402;
                  message := JStr "All 100 credits used.";
                  details := JObj [("credits_used", JInt 100);
                                   ("credits_total", JInt 100)] |}).
Proof. reflexivity. Qed.

Example unknown_error_scenario :
  Errors.raise_for_status 500
    (JObj [("error", JObj [("code", JStr "internal_error");
                           ("message", JStr "Server error");
                           ("status", JInt 500)])])
    = Raise (ApiError
               {| cls := XeroMLError; code := JStr "internal_error";
                  status := 500; message := JStr "Server error";
                  details := JNull |}).
Proof. reflexivity. Qed.

(** An [error] entry that is not an object is no error body, and the
    classifier ends in the [AttributeError] of [.get] on it. *)
Example error_entry_not_an_object :
  Errors.raise_for_status 404 (JObj [("error", JStr "Not Found")])
    = Raise AttributeError.
Proof. reflexivity. Qed.

(** C4.  The specification has each kind carry its own default message,
    used when the body omits one.  The classes do declare those defaults,
    and [construct] applies them when [message] is omitted; but
    [raise_for_status] never omits it: it passes the result of
    [error_data.get("message", "Unknown error")], so for every status of the
    table the failure carries the shared text ["Unknown error"], which is
    the default of none of the classes. *)
Theorem omitted_message_is_unknown_error
    (status : Z) (c : error_class) (body : json) (d : dict) :
  In (status, c) table_4_1 ->
  error_fields body = Some d ->
  dict_get "message" d = None ->
  exists e own,
    Errors.raise_for_status status body = Raise (ApiError e)
    /\ cls e = c
    /\ message e = JStr "Unknown error"
    /\ Errors.default_message c = Some own
    /\ Errors.construct c None None
         = Ok (Errors.XeroMLError_init c (code e) status (JStr own) None)
    /\ own <> "Unknown error".
Proof.
  intros Hc Hd Hm.
  rewrite (raise_for_status_on_fields status body d Hd).
  rewrite (map_get_table status c Hc).
  unfold get_or; rewrite Hm.
  unfold table_4_1 in Hc; simpl in Hc.
  repeat (destruct Hc as [Hc | Hc];
          [injection Hc as <- <-; simpl;
           eexists; eexists; repeat split; try reflexivity; discriminate | ]).
  contradiction.
Qed.

Lemma omitted_message_is_unknown_error_witness :
  In (401, InvalidAPIKeyError) table_4_1
  /\ error_fields (JObj []) = Some []
  /\ dict_get "message" [] = None
  /\ exists e own,
       Errors.raise_for_status 401 (JObj []) = Raise (ApiError e)
       /\ cls e = InvalidAPIKeyError
       /\ message e = JStr "Unknown error"
       /\ Errors.default_message InvalidAPIKeyError = Some own
       /\ Errors.construct InvalidAPIKeyError None None
            = Ok (Errors.XeroMLError_init InvalidAPIKeyError (code e) 401
                    (JStr own) None)
       /\ own <> "Unknown error".
Proof.
  split; [simpl; tauto | ].
  split; [reflexivity | ].
  split; [reflexivity | ].
  apply (omitted_message_is_unknown_error 401 InvalidAPIKeyError (JObj []) []);
    [simpl; tauto | reflexivity | reflexivity].
Defined.

Example invalid_key_without_message :
  Errors.raise_for_status 401
    (JObj [("error", JObj [("code", JStr "invalid_api_key")])])
    = Raise (ApiError
               {| cls := InvalidAPIKeyError; code := JStr "invalid_api_key";
                  status := 401; message := JStr "Unknown error";
                  details := JNull |}).
Proof. reflexivity. Qed.

(** C7.  A body that nests the fields under [error] and the body that
    carries the same fields at its top level are classified alike, for
    every status: the same instance of [XeroMLError] is raised, and its
    message and details are those of the fields. *)
Theorem nested_and_flat_bodies_classify_alike
    (status : Z) (fields wrapper : dict) :
  dict_get "error" fields = None ->
  dict_get "error" wrapper = Some (JObj fields) ->
  exists e,
    Errors.raise_for_status status (JObj wrapper) = Raise (ApiError e)
    /\ Errors.raise_for_status status (JObj fields) = Raise (ApiError e)
    /\ message e = get_or "message" (JStr "Unknown error") fields
    /\ details e = get_or "details" JNull fields
    /\ code e =
         match Errors.fixed_code
                 (Errors.map_get status Errors._ERROR_MAP XeroMLError) with
         | Some fixed => JStr fixed
         | None => get_or "code" (JStr "unknown") fields
         end.
Proof.
  intros Hflat Hnested.
  assert (Hw : error_fields (JObj wrapper) = Some fields)
    by (simpl; rewrite Hnested; reflexivity).
  assert (Hf : error_fields (JObj fields) = Some fields)
    by (simpl; rewrite Hflat; reflexivity).
  rewrite (raise_for_status_on_fields status _ _ Hw).
  rewrite (raise_for_status_on_fields status _ _ Hf).
  cbv zeta.
  destruct (Errors.map_get status Errors._ERROR_MAP XeroMLError); simpl;
    eexists; repeat split; auto.
Qed.

Lemma nested_and_flat_bodies_classify_alike_witness :
  exists e,
    Errors.raise_for_status 409
      (JObj [("error", JObj Samples.session_ended_fields)])
      = Raise (ApiError e)
    /\ Errors.raise_for_status 409 (JObj Samples.session_ended_fields)
       = Raise (ApiError e)
    /\ message e
       = get_or "message" (JStr "Unknown error") Samples.session_ended_fields
    /\ details e = get_or "details" JNull Samples.session_ended_fields
    /\ code e =
         match Errors.fixed_code
                 (Errors.map_get 409 Errors._ERROR_MAP XeroMLError) with
         | Some fixed => JStr fixed
         | None => get_or "code" (JStr "unknown") Samples.session_ended_fields
         end.
Proof.
  apply (nested_and_flat_bodies_classify_alike 409
           Samples.session_ended_fields
           [("error", JObj Samples.session_ended_fields)]); reflexivity.
Defined.

(* ================================================================= *)
(** ** The typed model layer (types.py) *)

Import Types.

(** *** Dicts *)

Lemma dict_get_set_same (k : string) (v : json) (d : dict) :
  dict_get k (dict_set k v d) = Some v.
Proof.
  induction d as [ | [k' v'] r IH]; simpl.
  - now rewrite String.eqb_refl.
  - destruct (String.eqb k k') eqn:E; simpl.
    + now rewrite String.eqb_refl.
    + now rewrite E.
Qed.

Lemma dict_get_set_other (k k' : string) (v : json) (d : dict) :
  String.eqb k' k = false ->
  dict_get k' (dict_set k v d) = dict_get k' d.
Proof.
  intros Hne. induction d as [ | [k0 v0] r IH]; simpl.
  - now rewrite Hne.
  - destruct (String.eqb k k0) eqn:E; simpl.
    + apply String.eqb_eq in E; subst k0. now rewrite Hne.
    + now rewrite IH.
Qed.

(** *** Fields *)

Lemma field_present {A} d name (check : json -> result A) default x :
  dict_get name d = Some x -> field d name check default = check x.
Proof. unfold field; now intros ->. Qed.

Lemma field_absent {A} d name (check : json -> result A) a :
  dict_get name d = None -> field d name check (Some a) = Ok a.
Proof. unfold field; now intros ->. Qed.

Lemma field_set_same {A} d name (check : json -> result A) default x :
  field (dict_set name x d) name check default = check x.
Proof. unfold field; now rewrite dict_get_set_same. Qed.

Lemma field_set_other {A} d name name' (check : json -> result A) default x :
  String.eqb name' name = false ->
  field (dict_set name x d) name' check default = field d name' check default.
Proof. unfold field; intros H; now rewrite dict_get_set_other. Qed.

(** *** Validation fails in one way only *)

Create HintDb validation discriminated.

Lemma only_invalid_ok {A} (a : A) : only_invalid (Ok a).
Proof. intros e; discriminate. Qed.

Lemma only_invalid_invalid {A} : only_invalid (@invalid A).
Proof. intros e [= <-]; reflexivity. Qed.

Lemma only_invalid_bind {A B} (r : result A) (f : A -> result B) :
  only_invalid r -> (forall a, only_invalid (f a)) ->
  only_invalid (Py.bind r f).
Proof.
  intros Hr Hf. destruct r as [a | e]; simpl.
  - apply Hf.
  - intros e' [= <-]. now apply Hr.
Qed.

Lemma only_invalid_coerced {A} (o : option A) : only_invalid (coerced o).
Proof. destruct o; [apply only_invalid_ok | apply only_invalid_invalid]. Qed.

#[local] Hint Resolve only_invalid_ok only_invalid_invalid only_invalid_bind
  only_invalid_coerced : validation.

Lemma only_invalid_str v : only_invalid (v_str v).
Proof. destruct v; simpl; auto with validation. Qed.
#[local] Hint Resolve only_invalid_str : validation.

Lemma only_invalid_pattern words v : only_invalid (v_pattern words v).
Proof.
  unfold v_pattern. apply only_invalid_bind; auto with validation.
  intros s. destruct (existsb _ _); auto with validation.
Qed.

Lemma only_invalid_float {L : Lax} v : only_invalid (v_float v).
Proof. destruct v; simpl; auto with validation. Qed.
#[local] Hint Resolve only_invalid_pattern only_invalid_float : validation.

Lemma only_invalid_float_range {L : Lax} lo hi v :
  only_invalid (v_float_range lo hi v).
Proof.
  unfold v_float_range. apply only_invalid_bind; auto with validation.
  intros q. destruct (_ && _); auto with validation.
Qed.

Lemma only_invalid_int {L : Lax} v : only_invalid (v_int v).
Proof. destruct v; simpl; auto with validation. Qed.

Lemma only_invalid_bool {L : Lax} v : only_invalid (v_bool v).
Proof. destruct v; simpl; auto with validation. Qed.

Lemma only_invalid_optional {A} (f : json -> result A) v :
  (forall x, only_invalid (f x)) -> only_invalid (v_optional f v).
Proof.
  intros Hf. destruct v; simpl; auto with validation;
    (destruct (f _) eqn:E; simpl; [auto with validation | rewrite <- E; apply Hf]).
Qed.

Lemma only_invalid_all {A} (f : json -> result A) l :
  Forall (fun x => only_invalid (f x)) l -> only_invalid (v_all f l).
Proof.
  induction 1 as [ | x r Hx _ IH]; simpl; [auto with validation | ].
  apply only_invalid_bind; [exact Hx | intros a].
  apply only_invalid_bind; [exact IH | auto with validation].
Qed.

Lemma only_invalid_list {A} (f : json -> result A) v :
  (forall x, only_invalid (f x)) -> only_invalid (v_list f v).
Proof.
  intros Hf. destruct v; simpl; auto with validation.
  apply only_invalid_all. apply Forall_forall. auto.
Qed.

Lemma only_invalid_model {A} (validate : dict -> result A) v :
  (forall d, only_invalid (validate d)) -> only_invalid (v_model validate v).
Proof. intros Hv. destruct v; simpl; auto with validation. Qed.

Lemma only_invalid_field {A} d name (check : json -> result A) default :
  (forall x, only_invalid (check x)) ->
  only_invalid (field d name check default).
Proof. intros Hc. unfold field. destruct (dict_get name d); auto with validation. Qed.

#[local] Hint Resolve only_invalid_float_range only_invalid_int
  only_invalid_bool only_invalid_optional only_invalid_list
  only_invalid_model only_invalid_field : validation.

(** A model whose fields fail in that way only does so too. *)
Ltac model_only_invalid :=
  repeat (apply only_invalid_bind; [auto 6 with validation | intros ?]);
  auto with validation.

Lemma LatentStates_only_invalid d : only_invalid (LatentStates.validate d).
Proof. unfold LatentStates.validate. model_only_invalid. Qed.
#[local] Hint Resolve LatentStates_only_invalid : validation.

Lemma IntentMeta_only_invalid {L : Lax} d :
  only_invalid (IntentMeta.validate d).
Proof. unfold IntentMeta.validate. model_only_invalid. Qed.
#[local] Hint Resolve IntentMeta_only_invalid : validation.

Lemma CreditInfo_only_invalid {L : Lax} d :
  only_invalid (CreditInfo.validate d).
Proof. unfold CreditInfo.validate. model_only_invalid. Qed.

Lemma UsageMonth_only_invalid {L : Lax} d :
  only_invalid (UsageMonth.validate d).
Proof. unfold UsageMonth.validate. model_only_invalid. Qed.
#[local] Hint Resolve CreditInfo_only_invalid UsageMonth_only_invalid
  : validation.

Lemma UsageInfo_only_invalid {L : Lax} d :
  only_invalid (UsageInfo.validate d).
Proof. unfold UsageInfo.validate. model_only_invalid. Qed.

Lemma SessionInfo_only_invalid {L : Lax} d :
  only_invalid (SessionInfo.validate d).
Proof. unfold SessionInfo.validate. model_only_invalid. Qed.

Lemma DriftReport_only_invalid {L : Lax} d :
  only_invalid (DriftReport.validate d).
Proof. unfold DriftReport.validate. model_only_invalid. Qed.

(** *** The recursive model *)

(** Induction over decoded JSON, through arrays and the values of objects. *)
Lemma json_nested_ind (P : json -> Prop) :
  P JNull ->
  (forall b, P (JBool b)) ->
  (forall z, P (JInt z)) ->
  (forall q, P (JFloat q)) ->
  (forall s, P (JStr s)) ->
  (forall l, Forall P l -> P (JArr l)) ->
  (forall d, Forall (fun kv => P (snd kv)) d -> P (JObj d)) ->
  forall v, P v.
Proof.
  intros Hnull Hbool Hint Hfloat Hstr Harr Hobj.
  fix self 1.
  intros [ | b | z | q | s | l | d].
  - exact Hnull.
  - apply Hbool.
  - apply Hint.
  - apply Hfloat.
  - apply Hstr.
  - apply Harr. induction l as [ | x r IH]; constructor; [apply self | exact IH].
  - apply Hobj. induction d as [ | [k x] r IH]; constructor;
      [apply self | exact IH].
Qed.

(** The lookup loop inside [SubGoal.validate_value] is the [children] field
    like any other. *)
Lemma SubGoal_validate_value_eq {L : Lax} (d : dict) :
  SubGoal.validate_value (JObj d) =
    (i <- field d "id" v_str required ;;
     g <- field d "goal" v_str required ;;
     st <- field d "status" (v_pattern SubGoal.status_words) (Some "pending") ;;
     pr <- field d "priority" (v_float_range 0 1) required ;;
     sc <- field d "success_criteria" (v_list v_str) (Some []) ;;
     cs <- field d "constraints" (v_list v_str) (Some []) ;;
     un <- field d "uncertainty" (v_float_range 0 1) (Some (1 # 2)) ;;
     cr <- field d "context_requirements" (v_list v_str) (Some []) ;;
     mo <- field d "modality" v_str (Some "text") ;;
     de <- field d "dependencies" (v_list v_str) (Some []) ;;
     ch <- field d "children" (v_list SubGoal.validate_value) (Some []) ;;
     Ok {| SubGoal.id := i; SubGoal.goal := g; SubGoal.status := st;
           SubGoal.priority := pr; SubGoal.success_criteria := sc;
           SubGoal.constraints := cs; SubGoal.uncertainty := un;
           SubGoal.context_requirements := cr; SubGoal.modality := mo;
           SubGoal.dependencies := de; SubGoal.children := ch |}).
Proof.
  cbn [SubGoal.validate_value].
  do 10 (match goal with
         | |- Py.bind ?r _ = Py.bind ?r _ =>
             destruct r; cbn [Py.bind]; [ | reflexivity]
         end).
  f_equal.
  unfold field. induction d as [ | [k x] r IH]; [reflexivity | ].
  cbn [dict_get]. destruct (String.eqb "children" k); [ | exact IH].
  destruct x as [ | | | | | l | ]; try reflexivity.
  cbn [v_list]. clear IH.
  induction l as [ | y t IH]; [reflexivity | ].
  cbn [v_all]. now rewrite IH.
Qed.

Lemma SubGoal_only_invalid_deep {L : Lax} v :
  only_invalid (SubGoal.validate_value v)
  /\ (forall l, v = JArr l ->
        Forall (fun c => only_invalid (SubGoal.validate_value c)) l).
Proof.
  induction v as [ | b | z | q | s | l IH | d IH] using json_nested_ind;
    try solve [split; [simpl; auto with validation | discriminate]].
  - split; [simpl; auto with validation | ].
    intros l' [= <-]. revert IH. apply Forall_impl. now intros c [Hc _].
  - split; [ | discriminate].
    rewrite SubGoal_validate_value_eq.
    do 10 (apply only_invalid_bind; [auto 6 with validation | intros ?]).
    apply only_invalid_bind; [ | auto with validation].
    unfold field. destruct (dict_get "children" d) as [x | ] eqn:E;
      [ | auto with validation].
    assert (Hx : forall y, x = JArr y ->
              Forall (fun c => only_invalid (SubGoal.validate_value c)) y).
    { clear - E IH. induction d as [ | [k x'] r IHr]; [discriminate | ].
      cbn [dict_get] in E. inversion IH as [ | ? ? Hhd Htl]; subst.
      destruct (String.eqb "children" k).
      - injection E as <-. apply Hhd.
      - now apply IHr. }
    destruct x; simpl; auto with validation.
    apply only_invalid_all. now apply Hx.
Qed.

Lemma SubGoal_only_invalid {L : Lax} v :
  only_invalid (SubGoal.validate_value v).
Proof. apply SubGoal_only_invalid_deep. Qed.
#[local] Hint Resolve SubGoal_only_invalid : validation.

Lemma IntentGraph_only_invalid {L : Lax} d :
  only_invalid (IntentGraph.validate d).
Proof. unfold IntentGraph.validate. model_only_invalid. Qed.
#[local] Hint Resolve IntentGraph_only_invalid : validation.

Lemma ParseResponse_only_invalid {L : Lax} d :
  only_invalid (ParseResponse.validate d).
Proof. unfold ParseResponse.validate. model_only_invalid. Qed.

(** *** What each kind of field does to its model *)

Lemma v_pattern_ok words x s :
  v_pattern words x = Ok s -> x = JStr s /\ In s words.
Proof.
  unfold v_pattern. destruct x; simpl; try discriminate.
  destruct (existsb _ words) eqn:E; [ | discriminate].
  intros [= <-]. split; [reflexivity | ].
  apply existsb_exists in E as (w & Hw & Heq).
  apply String.eqb_eq in Heq. now subst.
Qed.

Lemma v_pattern_accepts words s :
  In s words -> v_pattern words (JStr s) = Ok s.
Proof.
  intros Hin. unfold v_pattern; simpl.
  assert (existsb (String.eqb s) words = true) as ->; [ | reflexivity].
  apply existsb_exists. exists s. split; [exact Hin | apply String.eqb_refl].
Qed.

Lemma v_pattern_rejects words x :
  (forall s, x = JStr s -> ~ In s words) ->
  v_pattern words x = Raise ValidationError.
Proof.
  intros Hx. destruct (v_pattern words x) as [s | e] eqn:E.
  - apply v_pattern_ok in E as [-> Hin]. now destruct (Hx s eq_refl).
  - f_equal. eapply only_invalid_pattern; eassumption.
Qed.

Lemma Qle_bool_range lo hi q :
  Qle_bool lo q && Qle_bool q hi = true <-> (lo <= q <= hi)%Q.
Proof.
  rewrite andb_true_iff, !Qle_bool_iff. reflexivity.
Qed.

(** An integer outside the unit interval converts to a float outside it,
    if it converts at all. *)
Lemma double_of_Z_outside z q :
  double_of_Z z = Some q ->
  ~ (0 <= inject_Z z <= 1)%Q -> ~ (0 <= q <= 1)%Q.
Proof.
  unfold double_of_Z.
  destruct (Z.ltb_spec (Z.abs z) (2 ^ 53)) as [Hsmall | Hbig].
  - now intros [= <-].
  - cbv zeta.
    set (e := Z.log2 (Z.abs z) - 52).
    set (m := Z.abs z / 2 ^ e).
    match goal with
    | |- context [if ?c then m + 1 else m] =>
        set (m' := if c then m + 1 else m);
        assert (Hm' : m <= m') by (unfold m'; destruct c; lia)
    end.
    destruct (2 ^ 1024 <=? m' * 2 ^ e); [discriminate | ].
    intros [= <-] _.
    assert (Hlog : 53 <= Z.log2 (Z.abs z)).
    { apply Z.log2_le_pow2; lia. }
    assert (He : 1 <= e) by (unfold e; lia).
    assert (Hpow : 2 <= 2 ^ e).
    { change 2 with (2 ^ 1) at 1. apply Z.pow_le_mono_r; lia. }
    assert (Hm : 1 <= m).
    { unfold m. apply Z.div_le_lower_bound; [lia | ].
      rewrite Z.mul_1_r.
      transitivity (2 ^ Z.log2 (Z.abs z)).
      - apply Z.pow_le_mono_r; unfold e; lia.
      - apply Z.log2_spec. lia. }
    assert (Hv : 2 <= m' * 2 ^ e) by nia.
    intros [Hlo Hhi].
    change 0%Q with (inject_Z 0) in Hlo. change 1%Q with (inject_Z 1) in Hhi.
    rewrite <- Zle_Qle in Hlo. rewrite <- Zle_Qle in Hhi.
    destruct z as [ | p | p]; cbn [Z.sgn] in *; lia.
Qed.

Lemma v_float_range_rejects {L : Lax} v q :
  number v = Some q -> ~ (0 <= q <= 1)%Q ->
  v_float_range 0 1 v = Raise ValidationError.
Proof.
  intros Hv Hq. unfold v_float_range.
  destruct v as [ | | z | q0 | | | ]; try discriminate;
    injection Hv as <-; cbn [v_float].
  - destruct (double_of_Z z) as [q' | ] eqn:E; [ | reflexivity].
    cbn [coerced Py.bind].
    destruct (Qle_bool 0 q' && Qle_bool q' 1) eqn:E'; [ | reflexivity].
    apply Qle_bool_range in E'. now destruct (double_of_Z_outside z q' E Hq).
  - cbn [Py.bind].
    destruct (Qle_bool 0 q0 && Qle_bool q0 1) eqn:E; [ | reflexivity].
    now apply Qle_bool_range in E.
Qed.

Lemma v_float_range_accepts {L : Lax} lo hi q :
  (lo <= q <= hi)%Q -> v_float_range lo hi (JFloat q) = Ok q.
Proof.
  intros Hq. unfold v_float_range; simpl.
  apply Qle_bool_range in Hq. now rewrite Hq.
Qed.

Lemma field_pattern_in d name words default s :
  field d name (v_pattern words) default = Ok s ->
  (forall s0, default = Some s0 -> In s0 words) ->
  In s words.
Proof.
  unfold field. destruct (dict_get name d).
  - intros H _. now apply v_pattern_ok in H.
  - destruct default; simpl; [ | discriminate].
    intros [= <-] H. now apply H.
Qed.

Lemma rejected {A} (r : result A) :
  only_invalid r -> (forall a, r <> Ok a) -> r = Raise ValidationError.
Proof.
  intros Hr Hn. destruct r as [a | e].
  - now destruct (Hn a).
  - f_equal. now apply Hr.
Qed.

(** The models as chains of fields. *)
Ltac unfold_models :=
  unfold LatentStates.validate, IntentMeta.validate, SubGoal.validate,
    IntentGraph.validate, ParseResponse.validate, DriftReport.validate,
    SessionInfo.validate, CreditInfo.validate, UsageMonth.validate,
    UsageInfo.validate in *;
  rewrite ?SubGoal_validate_value_eq in *.

(** From [H : validate d = Ok m], one equation per field. *)
Ltac fields_of H :=
  repeat match type of H with
         | Py.bind ?r _ = Ok _ =>
             let F := fresh "F" in
             destruct r eqn:F; cbn [Py.bind] in H; [ | discriminate H]
         end;
  injection H as <-.

(** Fields of a payload in which one entry was set. *)
Ltac fields_after_set :=
  repeat match goal with
         | |- context [field (dict_set ?k ?x ?d) ?k ?c ?df] =>
             rewrite (field_set_same d k c df x)
         | |- context [field (dict_set ?k ?x ?d) ?g ?c ?df] =>
             rewrite (field_set_other d k g c df x) by reflexivity
         | F : context [field (dict_set ?k ?x ?d) ?k ?c ?df] |- _ =>
             rewrite (field_set_same d k c df x) in F
         | F : context [field (dict_set ?k ?x ?d) ?g ?c ?df] |- _ =>
             rewrite (field_set_other d k g c df x) in F by reflexivity
         end.

Ltac use_fields :=
  repeat match goal with
         | F : field ?d ?g ?c ?df = Ok _ |- context [field ?d ?g ?c ?df] =>
             rewrite F; clear F
         end;
  cbn [Py.bind].

Ltac model_rejects :=
  apply rejected;
  [ unfold_models; model_only_invalid
  | let m := fresh "m" in
    let H := fresh "H" in
    intros m H; unfold_models; fields_of H ].

Ltac prove_enumerated :=
  split; [ | split; [ | split ] ];
  [ let Hget := fresh "Hget" in
    let Hx := fresh "Hx" in
    intros ? ? Hget Hx; model_rejects;
    match goal with
    | F : field _ _ (v_pattern _) _ = Ok _ |- _ =>
        let Hin := fresh "Hin" in
        rewrite (field_present _ _ _ _ _ Hget) in F;
        apply v_pattern_ok in F as [-> Hin]; exact (Hx _ eq_refl Hin)
    end
  | let H := fresh "H" in
    let Hd := fresh "Hd" in
    intros ? ? H; unfold_models; fields_of H;
    eapply field_pattern_in; [eassumption | ];
    intros ? Hd; inversion Hd; subst; simpl; tauto
  | let H := fresh "H" in
    let Hget := fresh "Hget" in
    intros ? ? ? H Hget; unfold_models; fields_of H;
    match goal with
    | F : field _ _ (v_pattern _) _ = Ok _ |- _ =>
        rewrite (field_present _ _ _ _ _ Hget) in F;
        apply v_pattern_ok in F as [-> _]; reflexivity
    end
  | let H := fresh "H" in
    let Hin := fresh "Hin" in
    intros ? ? ? H Hin; unfold_models; fields_of H; fields_after_set;
    match goal with
    | |- context [v_pattern ?ws (JStr ?w)] =>
        rewrite (v_pattern_accepts ws w Hin)
    end;
    use_fields; eexists; split; reflexivity ].

Ltac prove_defaulted :=
  split; [ | split; [ | split; [ | split ] ] ];
  [ let Hget := fresh "Hget" in
    let H := fresh "H" in
    intros ? ? Hget H; unfold_models; fields_of H; cbn;
    match goal with
    | F : field _ _ _ (Some _) = Ok _ |- _ =>
        rewrite (field_absent _ _ _ _ Hget) in F;
        injection F as <-; reflexivity
    end
  | let Hget := fresh "Hget" in
    let H := fresh "H" in
    intros ? ? ? Hget H; unfold_models; fields_of H; fields_after_set;
    rewrite (field_absent _ _ _ _ Hget); use_fields;
    eexists; reflexivity
  | let Hget := fresh "Hget" in
    let Hx := fresh "Hx" in
    intros ? ? ? Hget Hx; model_rejects;
    match goal with
    | F : field _ _ _ _ = Ok _ |- _ =>
        rewrite (field_present _ _ _ _ _ Hget) in F;
        discriminate (eq_trans (eq_sym F) Hx)
    end
  | let Hget := fresh "Hget" in
    let H := fresh "H" in
    intros ? ? ? Hget H; unfold_models; fields_of H;
    match goal with
    | F : field _ _ _ (Some _) = Ok _ |- _ =>
        rewrite (field_present _ _ _ _ _ Hget) in F; exact F
    end
  | let H := fresh "H" in
    let Hx := fresh "Hx" in
    let x := fresh "x" in
    let a := fresh "a" in
    intros ? x a ? H Hx; unfold_models; fields_of H; fields_after_set;
    match goal with
    | |- context [Py.bind (?c x) _] => rewrite (Hx : c x = Ok a)
    end;
    use_fields; eexists; split; reflexivity ].

(** A payload whose required fields are there and valid and whose other
    fields are absent validates, with the defaults. *)
Ltac prove_accepts :=
  intros; unfold has_str, lacks in *;
  unfold LatentStates.validate, IntentMeta.validate, SubGoal.validate,
    IntentGraph.validate, ParseResponse.validate, DriftReport.validate,
    SessionInfo.validate, CreditInfo.validate, UsageMonth.validate,
    UsageInfo.validate;
  rewrite ?SubGoal_validate_value_eq; unfold field;
  repeat match goal with
         | H : dict_get _ _ = _ |- _ => rewrite H; clear H
         end;
  cbn [v_str v_model v_list v_int v_bool v_optional coerced Py.bind];
  repeat match goal with
         | H : In ?w _ |- context [v_pattern ?ws (JStr ?w)] =>
             rewrite (v_pattern_accepts ws w H)
         | H : (_ <= ?q <= _)%Q |- context [v_float_range ?lo ?hi (JFloat ?q)] =>
             rewrite (v_float_range_accepts lo hi q H)
         | H : _ = Ok _ |- _ => rewrite H; clear H
         end;
  reflexivity.

Ltac prove_ranged :=
  split;
  [ let Hget := fresh "Hget" in
    let Hv := fresh "Hv" in
    let Hq := fresh "Hq" in
    intros ? ? ? Hget Hv Hq; model_rejects;
    match goal with
    | F : field _ _ (v_float_range _ _) _ = Ok _ |- _ =>
        rewrite (field_present _ _ _ _ _ Hget) in F;
        rewrite (v_float_range_rejects _ _ Hv Hq) in F; discriminate F
    end
  | let H := fresh "H" in
    let Hq := fresh "Hq" in
    intros ? ? ? H Hq; unfold_models; fields_of H; fields_after_set;
    rewrite (v_float_range_accepts _ _ _ Hq); use_fields;
    eexists; split; reflexivity ].

(** *** Validation is recursive *)

Lemma v_all_rejects {A} (f : json -> result A) l x :
  (forall y, only_invalid (f y)) ->
  In x l -> f x = Raise ValidationError ->
  v_all f l = Raise ValidationError.
Proof.
  intros Hf Hin Hx. apply rejected.
  - apply only_invalid_all, Forall_forall. auto.
  - intros r. induction l as [ | y t IH] in r, Hin |- *; [destruct Hin | ].
    simpl. destruct (f y) as [b | e] eqn:E; [ | discriminate].
    destruct Hin as [-> | Hin]; [congruence | ].
    simpl. destruct (v_all f t) as [bs | e] eqn:E'; [ | discriminate].
    now destruct (IH Hin bs).
Qed.

(** A sub-goal is invalid if one of its children is. *)
Lemma SubGoal_rejects_invalid_child {L : Lax} d l child :
  dict_get "children" d = Some (JArr l) -> In child l ->
  SubGoal.validate_value child = Raise ValidationError ->
  SubGoal.validate d = Raise ValidationError.
Proof.
  intros Hget Hin Hchild. model_rejects.
  match goal with
  | F : field _ "children" _ _ = Ok _ |- _ =>
      rewrite (field_present _ _ _ _ _ Hget) in F; cbn [v_list] in F;
      rewrite (v_all_rejects _ l child SubGoal_only_invalid Hin Hchild) in F;
      discriminate F
  end.
Qed.

(** A graph is invalid if one of its sub-goals or its meta is. *)
Lemma IntentGraph_rejects_invalid_sub_goal {L : Lax} d l sub_goal :
  dict_get "sub_goals" d = Some (JArr l) -> In sub_goal l ->
  SubGoal.validate_value sub_goal = Raise ValidationError ->
  IntentGraph.validate d = Raise ValidationError.
Proof.
  intros Hget Hin Hsub. model_rejects.
  match goal with
  | F : field _ "sub_goals" _ _ = Ok _ |- _ =>
      rewrite (field_present _ _ _ _ _ Hget) in F; cbn [v_list] in F;
      rewrite (v_all_rejects _ l sub_goal SubGoal_only_invalid Hin Hsub) in F;
      discriminate F
  end.
Qed.

Lemma IntentGraph_rejects_invalid_meta {L : Lax} d meta :
  dict_get "meta" d = Some (JObj meta) ->
  IntentMeta.validate meta = Raise ValidationError ->
  IntentGraph.validate d = Raise ValidationError.
Proof.
  intros Hget Hmeta.
  apply rejected; [auto with validation | ].
  intros m H. unfold IntentGraph.validate in H. fields_of H.
  match goal with
  | F : field _ "meta" _ _ = Ok _ |- _ =>
      rewrite (field_present _ _ _ _ _ Hget) in F; cbn [v_model] in F;
      rewrite Hmeta in F; discriminate F
  end.
Qed.

(** C6.  The five enumerated fields: a payload whose value for one of them
    is not a word of its fixed set is rejected, only words of the set get
    through, a word that is present is the one kept, and every word of the
    set is accepted.  The nineteen fields with a declared default: absent
    from the payload, the field takes the default and never causes
    rejection; present with a value its validator rejects, the payload is
    rejected and no default stands in; present with a value its validator
    accepts, the field holds that value and not the default.  And the
    models do accept: a payload whose required fields are there and valid
    validates, each absent field at its default. *)
Theorem enumerated_and_defaulted_fields (L : Lax) :
  (enumerated SubGoal.validate "status" SubGoal.status
     ["pending"; "active"; "done"; "blocked"; "abandoned"; "background"]
   /\ enumerated LatentStates.validate "action_readiness"
        LatentStates.action_readiness ["exploring"; "deciding"; "executing"]
   /\ enumerated LatentStates.validate "ambiguity_level"
        LatentStates.ambiguity_level ["clear"; "partial"; "conflicting"]
   /\ enumerated LatentStates.validate "risk_sensitivity"
        LatentStates.risk_sensitivity ["low"; "medium"; "high"]
   /\ enumerated LatentStates.validate "intent_scope"
        LatentStates.intent_scope ["single"; "compound"; "multi_step"])
  /\ (defaulted SubGoal.validate "status" SubGoal.status
        (v_pattern SubGoal.status_words) "pending"
      /\ defaulted SubGoal.validate "success_criteria"
           SubGoal.success_criteria (v_list v_str) []
      /\ defaulted SubGoal.validate "constraints"
           SubGoal.constraints (v_list v_str) []
      /\ defaulted SubGoal.validate "uncertainty"
           SubGoal.uncertainty (v_float_range 0 1) (1 # 2)
      /\ defaulted SubGoal.validate "context_requirements"
           SubGoal.context_requirements (v_list v_str) []
      /\ defaulted SubGoal.validate "modality" SubGoal.modality v_str "text"
      /\ defaulted SubGoal.validate "dependencies"
           SubGoal.dependencies (v_list v_str) []
      /\ defaulted SubGoal.validate "children"
           SubGoal.children (v_list SubGoal.validate_value) []
      /\ defaulted IntentMeta.validate "source"
           IntentMeta.source v_str "user_input"
      /\ defaulted IntentMeta.validate "negotiation_history"
           IntentMeta.negotiation_history (v_list v_str) []
      /\ defaulted IntentGraph.validate "schema_version"
           IntentGraph.schema_version v_str "0.1.0"
      /\ defaulted ParseResponse.validate "session_id"
           ParseResponse.session_id (v_optional v_str) None
      /\ defaulted DriftReport.validate "drift_type"
           DriftReport.drift_type (v_optional v_str) None
      /\ defaulted DriftReport.validate "severity"
           DriftReport.severity (v_optional v_float) None
      /\ defaulted DriftReport.validate "description"
           DriftReport.description (v_optional v_str) None
      /\ defaulted DriftReport.validate "previous_goal"
           DriftReport.previous_goal (v_optional v_str) None
      /\ defaulted DriftReport.validate "current_goal"
           DriftReport.current_goal (v_optional v_str) None
      /\ defaulted UsageMonth.validate "total_latency_ms"
           UsageMonth.total_latency_ms v_int 0
      /\ defaulted UsageInfo.validate "usage"
           UsageInfo.usage (v_list (v_model UsageMonth.validate)) [])
  /\ ((forall d gi ar al rs sc,
         has_str d "goal_intent" gi ->
         has_str d "action_readiness" ar ->
         In ar ["exploring"; "deciding"; "executing"] ->
         has_str d "ambiguity_level" al ->
         In al ["clear"; "partial"; "conflicting"] ->
         has_str d "risk_sensitivity" rs ->
         In rs ["low"; "medium"; "high"] ->
         has_str d "intent_scope" sc ->
         In sc ["single"; "compound"; "multi_step"] ->
         LatentStates.validate d
         = Ok {| LatentStates.goal_intent := gi;
                 LatentStates.action_readiness := ar;
                 LatentStates.ambiguity_level := al;
                 LatentStates.risk_sensitivity := rs;
                 LatentStates.intent_scope := sc |})
      /\ (forall d i g q,
            has_str d "id" i -> has_str d "goal" g ->
            dict_get "priority" d = Some (JFloat q) -> (0 <= q <= 1)%Q ->
            lacks d "status" -> lacks d "success_criteria" ->
            lacks d "constraints" -> lacks d "uncertainty" ->
            lacks d "context_requirements" -> lacks d "modality" ->
            lacks d "dependencies" -> lacks d "children" ->
            SubGoal.validate d
            = Ok {| SubGoal.id := i; SubGoal.goal := g;
                    SubGoal.status := "pending"; SubGoal.priority := q;
                    SubGoal.success_criteria := [];
                    SubGoal.constraints := [];
                    SubGoal.uncertainty := 1 # 2;
                    SubGoal.context_requirements := [];
                    SubGoal.modality := "text"; SubGoal.dependencies := [];
                    SubGoal.children := [] |})
      /\ (forall d q latent ls,
            dict_get "confidence" d = Some (JFloat q) -> (0 <= q <= 1)%Q ->
            dict_get "latent_states" d = Some (JObj latent) ->
            LatentStates.validate latent = Ok ls ->
            lacks d "source" -> lacks d "negotiation_history" ->
            IntentMeta.validate d
            = Ok {| IntentMeta.source := "user_input";
                    IntentMeta.confidence := q;
                    IntentMeta.negotiation_history := [];
                    IntentMeta.latent_states := ls |})
      /\ (forall d rg l sub_goals meta me,
            has_str d "root_goal" rg ->
            dict_get "sub_goals" d = Some (JArr l) ->
            v_all SubGoal.validate_value l = Ok sub_goals ->
            dict_get "meta" d = Some (JObj meta) ->
            IntentMeta.validate meta = Ok me ->
            lacks d "schema_version" ->
            IntentGraph.validate d
            = Ok {| IntentGraph.schema_version := "0.1.0";
                    IntentGraph.root_goal := rg;
                    IntentGraph.sub_goals := sub_goals;
                    IntentGraph.meta := me |})
      /\ (forall d graph g ri z,
            dict_get "graph" d = Some (JObj graph) ->
            IntentGraph.validate graph = Ok g ->
            has_str d "request_id" ri ->
            dict_get "latency_ms" d = Some (JInt z) ->
            lacks d "session_id" ->
            ParseResponse.validate d
            = Ok {| ParseResponse.graph := g;
                    ParseResponse.session_id := None;
                    ParseResponse.request_id := ri;
                    ParseResponse.latency_ms := z |})
      /\ (forall d b,
            dict_get "detected" d = Some (JBool b) ->
            lacks d "drift_type" -> lacks d "severity" ->
            lacks d "description" -> lacks d "previous_goal" ->
            lacks d "current_goal" ->
            DriftReport.validate d
            = Ok {| DriftReport.detected := b;
                    DriftReport.drift_type := None;
                    DriftReport.severity := None;
                    DriftReport.description := None;
                    DriftReport.previous_goal := None;
                    DriftReport.current_goal := None |})
      /\ (forall d mo pc dc sc,
            has_str d "month" mo ->
            dict_get "parse_calls" d = Some (JInt pc) ->
            dict_get "drift_checks" d = Some (JInt dc) ->
            dict_get "session_creates" d = Some (JInt sc) ->
            lacks d "total_latency_ms" ->
            UsageMonth.validate d
            = Ok {| UsageMonth.month := mo; UsageMonth.parse_calls := pc;
                    UsageMonth.drift_checks := dc;
                    UsageMonth.session_creates := sc;
                    UsageMonth.total_latency_ms := 0 |})
      /\ (forall d credits c ti rl,
            dict_get "credits" d = Some (JObj credits) ->
            CreditInfo.validate credits = Ok c ->
            has_str d "tier" ti ->
            dict_get "rate_limit" d = Some (JInt rl) ->
            lacks d "usage" ->
            UsageInfo.validate d
            = Ok {| UsageInfo.credits := c; UsageInfo.tier := ti;
                    UsageInfo.rate_limit := rl; UsageInfo.usage := [] |})).
Proof.
  split; [ | split].
  - repeat match goal with |- _ /\ _ => split end; prove_enumerated.
  - repeat match goal with |- _ /\ _ => split end; prove_defaulted.
  - repeat match goal with |- _ /\ _ => split end; prove_accepts.
Qed.

Lemma enumerated_and_defaulted_fields_witness :
  (dict_get "action_readiness"
     (dict_set "action_readiness" (JStr "pondering")
        Samples.SAMPLE_LATENT_STATES)
     = Some (JStr "pondering")
   /\ LatentStates.validate
        (dict_set "action_readiness" (JStr "pondering")
           Samples.SAMPLE_LATENT_STATES)
      = Raise ValidationError)
  /\ LatentStates.validate Samples.SAMPLE_LATENT_STATES
     = Ok {| LatentStates.goal_intent := "refactoring";
             LatentStates.action_readiness := "executing";
             LatentStates.ambiguity_level := "clear";
             LatentStates.risk_sensitivity := "medium";
             LatentStates.intent_scope := "compound" |}
  /\ SubGoal.validate (L := Samples.native_only)
       [("id", JStr "sg_001"); ("goal", JStr "Add OAuth2 support");
        ("priority", JFloat (9 # 10))]
     = Ok {| SubGoal.id := "sg_001"; SubGoal.goal := "Add OAuth2 support";
             SubGoal.status := "pending"; SubGoal.priority := 9 # 10;
             SubGoal.success_criteria := []; SubGoal.constraints := [];
             SubGoal.uncertainty := 1 # 2;
             SubGoal.context_requirements := []; SubGoal.modality := "text";
             SubGoal.dependencies := []; SubGoal.children := [] |}.
Proof.
  destruct (enumerated_and_defaulted_fields Samples.native_only)
    as ((_ & [Hreject _] & _) & _ & (Hlatent & Hsub_goal & _)).
  split; [split; [reflexivity | ] | split].
  - apply Hreject with (x := JStr "pondering"); [reflexivity | ].
    intros s [= <-]. simpl. intuition discriminate.
  - apply Hlatent; try reflexivity; simpl; tauto.
  - apply Hsub_goal; try reflexivity.
    split; unfold Qle; simpl; lia.
Defined.

(** The examples of section 8 on the typed model, evaluated. *)
Example executing_is_accepted :
  LatentStates.validate Samples.SAMPLE_LATENT_STATES
    = Ok {| LatentStates.goal_intent := "refactoring";
            LatentStates.action_readiness := "executing";
            LatentStates.ambiguity_level := "clear";
            LatentStates.risk_sensitivity := "medium";
            LatentStates.intent_scope := "compound" |}.
Proof. reflexivity. Qed.

Example pondering_is_rejected :
  LatentStates.validate
    (dict_set "action_readiness" (JStr "pondering")
       Samples.SAMPLE_LATENT_STATES)
    = Raise ValidationError.
Proof. reflexivity. Qed.

Example absent_fields_take_their_defaults :
  SubGoal.validate (L := Samples.native_only)
    [("id", JStr "sg_001"); ("goal", JStr "Add OAuth2 support");
     ("priority", JFloat (9 # 10))]
    = Ok {| SubGoal.id := "sg_001"; SubGoal.goal := "Add OAuth2 support";
            SubGoal.status := "pending"; SubGoal.priority := 9 # 10;
            SubGoal.success_criteria := []; SubGoal.constraints := [];
            SubGoal.uncertainty := 1 # 2;
            SubGoal.context_requirements := []; SubGoal.modality := "text";
            SubGoal.dependencies := []; SubGoal.children := [] |}.
Proof. reflexivity. Qed.

Example null_status_is_not_defaulted :
  SubGoal.validate (L := Samples.native_only)
    [("id", JStr "sg_001"); ("goal", JStr "Add OAuth2 support");
     ("status", JNull); ("priority", JFloat (9 # 10))]
    = Raise ValidationError.
Proof. reflexivity. Qed.

Example sample_graph_decodes :
  option_map
    (fun g => (IntentGraph.root_goal g, List.length (IntentGraph.sub_goals g),
               IntentMeta.confidence (IntentGraph.meta g)))
    (match IntentGraph.validate (L := Samples.native_only)
             Samples.SAMPLE_GRAPH with
     | Ok g => Some g
     | Raise _ => None
     end)
    = Some ("Refactor auth module", 1%nat, 85 # 100).
Proof. reflexivity. Qed.

(** C3 lists [severity] among the range-checked fields.  It is not one:
    [DriftReport] declares [severity: float | None = None] with no bounds,
    and a report whose severity is 1.5 validates. *)
Lemma severity_is_not_range_checked :
  ~ (forall (L : Lax) (d : dict) (v : json) (q : Q),
       dict_get "severity" d = Some v -> number v = Some q ->
       ~ (0 <= q <= 1)%Q ->
       DriftReport.validate d = Raise ValidationError).
Proof.
  intros bounded.
  specialize (bounded Samples.native_only
                [("detected", JBool true); ("severity", JFloat (3 # 2))]
                (JFloat (3 # 2)) (3 # 2) eq_refl eq_refl).
  assert (Hout : ~ (0 <= 3 # 2 <= 1)%Q).
  { intros [_ H]. unfold Qle in H; simpl in H. lia. }
  specialize (bounded Hout). discriminate bounded.
Qed.

Example severity_above_one_validates :
  DriftReport.validate (L := Samples.native_only)
    [("detected", JBool true); ("severity", JFloat (3 # 2))]
    = Ok {| DriftReport.detected := true; DriftReport.drift_type := None;
            DriftReport.severity := Some (3 # 2);
            DriftReport.description := None;
            DriftReport.previous_goal := None;
            DriftReport.current_goal := None |}.
Proof. reflexivity. Qed.

(** An integer given for a float field becomes the double Python converts
    it to: exact up to 2**53, rounded beyond, and rejected where the
    conversion overflows. *)
Example int_to_float_is_exact_up_to_2_53 :
  double_of_Z (2 ^ 53) = Some (inject_Z 9007199254740992)
  /\ double_of_Z (-7) = Some (inject_Z (-7)).
Proof. split; reflexivity. Qed.

Example int_to_float_rounds_to_even :
  double_of_Z (2 ^ 53 + 1) = Some (inject_Z 9007199254740992)
  /\ double_of_Z (2 ^ 53 + 3) = Some (inject_Z 9007199254740996).
Proof. split; vm_compute; reflexivity. Qed.

Example int_to_float_overflows :
  double_of_Z (10 ^ 400) = None
  /\ double_of_Z (2 ^ 1024 - 2 ^ 970) = None
  /\ double_of_Z (2 ^ 1024 - 2 ^ 970 - 1)
     = Some (inject_Z (2 ^ 1024 - 2 ^ 971)).
Proof. repeat split; vm_compute; reflexivity. Qed.

Example severity_too_large_for_a_float :
  DriftReport.validate (L := Samples.native_only)
    [("detected", JBool true); ("severity", JInt (10 ^ 400))]
  = Raise ValidationError.
Proof. vm_compute. reflexivity. Qed.

(** C3, as the code has it.  [confidence], [priority] and [uncertainty]
    are checked against the closed interval from 0 to 1: a payload in which
    one of them is a number outside it is rejected, and so is a graph whose
    meta or one of whose sub-goals is such a payload; a payload in which the
    field is a float inside the interval, 0.0 and 1.0 included, is accepted
    with that value.  [severity] has no range: a valid report stays valid
    whatever float its severity is set to. *)
Theorem range_checked_fields (L : Lax) :
  ranged IntentMeta.validate "confidence" IntentMeta.confidence 0 1
  /\ ranged SubGoal.validate "priority" SubGoal.priority 0 1
  /\ ranged SubGoal.validate "uncertainty" SubGoal.uncertainty 0 1
  /\ (forall d meta v q,
        dict_get "meta" d = Some (JObj meta) ->
        dict_get "confidence" meta = Some v -> number v = Some q ->
        ~ (0 <= q <= 1)%Q ->
        IntentGraph.validate d = Raise ValidationError)
  /\ (forall d l sub_goal name v q,
        dict_get "sub_goals" d = Some (JArr l) -> In (JObj sub_goal) l ->
        name = "priority" \/ name = "uncertainty" ->
        dict_get name sub_goal = Some v -> number v = Some q ->
        ~ (0 <= q <= 1)%Q ->
        IntentGraph.validate d = Raise ValidationError)
  /\ (forall d r q,
        DriftReport.validate d = Ok r ->
        exists r',
          DriftReport.validate (dict_set "severity" (JFloat q) d) = Ok r'
          /\ DriftReport.severity r' = Some q).
Proof.
  assert (Hconfidence :
            ranged IntentMeta.validate "confidence" IntentMeta.confidence 0 1)
    by prove_ranged.
  assert (Hpriority :
            ranged SubGoal.validate "priority" SubGoal.priority 0 1)
    by prove_ranged.
  assert (Huncertainty :
            ranged SubGoal.validate "uncertainty" SubGoal.uncertainty 0 1)
    by prove_ranged.
  repeat match goal with |- _ /\ _ => split end;
    try apply Hconfidence; try apply Hpriority; try apply Huncertainty.
  - intros d meta v q Hmeta Hget Hv Hq.
    eapply IntentGraph_rejects_invalid_meta; [exact Hmeta | ].
    eapply Hconfidence; eassumption.
  - intros d l sub_goal name v q Hsub Hin Hname Hget Hv Hq.
    eapply IntentGraph_rejects_invalid_sub_goal; [exact Hsub | exact Hin | ].
    change (SubGoal.validate sub_goal = Raise ValidationError).
    destruct Hname as [-> | ->];
      [eapply Hpriority | eapply Huncertainty]; eassumption.
  - intros d r q H. unfold_models. fields_of H. fields_after_set.
    use_fields. cbn. eexists; split; reflexivity.
Qed.

Example confidence_above_one_inside_a_graph :
  IntentGraph.validate (L := Samples.native_only)
    (dict_set "meta"
       (JObj (dict_set "confidence" (JFloat (10001 # 10000))
                Samples.SAMPLE_META))
       Samples.SAMPLE_GRAPH)
  = Raise ValidationError.
Proof. reflexivity. Qed.

Lemma range_checked_fields_witness :
  (exists m,
     IntentMeta.validate (L := Samples.native_only)
       (dict_set "confidence" (JFloat 0) Samples.SAMPLE_META) = Ok m
     /\ IntentMeta.confidence m = 0%Q)
  /\ (exists m,
        IntentMeta.validate (L := Samples.native_only)
          (dict_set "confidence" (JFloat 1) Samples.SAMPLE_META) = Ok m
        /\ IntentMeta.confidence m = 1%Q)
  /\ IntentMeta.validate (L := Samples.native_only)
       (dict_set "confidence" (JFloat (- 1 # 10000)) Samples.SAMPLE_META)
     = Raise ValidationError
  /\ IntentMeta.validate (L := Samples.native_only)
       (dict_set "confidence" (JFloat (10001 # 10000)) Samples.SAMPLE_META)
     = Raise ValidationError.
Proof.
  destruct (range_checked_fields Samples.native_only)
    as ([Hreject Haccept] & _).
  split; [ | split; [ | split]].
  - eapply Haccept; [reflexivity | ].
    split; unfold Qle; simpl; lia.
  - eapply Haccept; [reflexivity | ].
    split; unfold Qle; simpl; lia.
  - eapply Hreject; [reflexivity | reflexivity | ].
    intros [H _]. unfold Qle in H; simpl in H. lia.
  - eapply Hreject; [reflexivity | reflexivity | ].
    intros [_ H]. unfold Qle in H; simpl in H. lia.
Defined.

(* ================================================================= *)
(** ** The two clients (client.py, async_client.py, session.py) *)

(** *** Running a coroutine *)

Lemma run_tlift {A} (r : result A) (http : Transport) :
  run (tlift r) http = lift r http.
Proof. destruct r; reflexivity. Qed.

Lemma run_arequest (req : Request) (http : Transport) :
  run (arequest req) http = request req http.
Proof.
  unfold arequest, request; simpl. destruct (http req); reflexivity.
Qed.

Lemma run_tbind {A B} (m : task A) (f : A -> task B) (http : Transport) :
  run (tbind m f) http = Http.bind (run m) (fun a => run (f a)) http.
Proof.
  induction m as [a | e | req k IH]; unfold Http.bind; simpl.
  - destruct (run (f a) http); reflexivity.
  - reflexivity.
  - destruct (http req) as [res | e]; [ | reflexivity].
    rewrite IH. unfold Http.bind.
    destruct (run (k res) http) as [sent [a | e]]; [ | reflexivity].
    destruct (run (f a) http); reflexivity.
Qed.

Lemma bind_ext {A B} (m m' : io A) (f g : A -> io B) (http : Transport) :
  m http = m' http -> (forall a, f a http = g a http) ->
  Http.bind m f http = Http.bind m' g http.
Proof.
  intros Hm Hf. unfold Http.bind. rewrite Hm.
  destruct (m' http) as [sent [a | e]]; [ | reflexivity].
  now rewrite Hf.
Qed.

(** A coroutine and a blocking call written with the same steps do the
    same: the proof walks the two definitions in lock-step. *)
Ltac lock_step :=
  repeat first
    [ rewrite run_tbind
    | apply bind_ext; [ | intros ? ]
    | apply run_tlift
    | apply run_arequest
    | reflexivity
    | match goal with
      | |- context [if ?b then _ else _] => destruct b
      end ].

Lemma async_request_is_request method path json http :
  run (AsyncClient._request method path json) http
  = Client._request method path json http.
Proof. unfold AsyncClient._request, Client._request. lock_step. Qed.

(** *** Operation by operation *)

Section Agreement.
Context {L : Lax} {F : Format}.
Variable http : Transport.

Lemma async_parse_is_parse message provider :
  run (AsyncClient.parse message provider) http
  = Client.parse message provider http.
Proof.
  unfold AsyncClient.parse, Client.parse. lock_step.
  apply async_request_is_request.
Qed.

Lemma async_create_session_is_create_session session_id :
  paired_outcomes (run (AsyncClient.create_session session_id) http)
    (Client.create_session session_id http).
Proof.
  unfold paired_outcomes, AsyncClient.create_session, Client.create_session.
  rewrite run_tbind. unfold Http.bind, lift, ret.
  rewrite async_request_is_request.
  destruct (Client._request _ _ _ http) as [sent [res | e]];
    [ | split; reflexivity].
  destruct (res_json res) as [data | e]; [ | split; reflexivity].
  cbn [tlift tbind run].
  destruct (Py.getitem data "session_id") as [id | e];
    [ | split; reflexivity].
  split; [reflexivity | ]. repeat split.
Qed.

Lemma async_list_sessions_is_list_sessions :
  run AsyncClient.list_sessions http = Client.list_sessions http.
Proof.
  unfold AsyncClient.list_sessions, Client.list_sessions. lock_step.
  apply async_request_is_request.
Qed.

Lemma async_get_usage_is_get_usage :
  run AsyncClient.get_usage http = Client.get_usage http.
Proof.
  unfold AsyncClient.get_usage, Client.get_usage. lock_step.
  apply async_request_is_request.
Qed.

Variable a : AsyncSession.t.
Variable s : Session.t.
Hypothesis same : paired a s.

Lemma async_session_request method path json :
  run (AsyncSession._request a method path json) http
  = Session._request s method path json http.
Proof.
  destruct same as (_ & Ha & Hs).
  unfold AsyncSession._request, Session._request.
  rewrite Ha, Hs. apply async_request_is_request.
Qed.

Ltac session_lock_step :=
  destruct same as (Hid & _ & _); rewrite Hid; lock_step;
  apply async_session_request.

Lemma async_session_parse message provider :
  run (AsyncSession.parse a message provider) http
  = Session.parse s message provider http.
Proof. unfold AsyncSession.parse, Session.parse. session_lock_step. Qed.

Lemma async_session_update response role :
  run (AsyncSession.update a response role) http
  = Session.update s response role http.
Proof. unfold AsyncSession.update, Session.update. session_lock_step. Qed.

Lemma async_session_check_drift :
  run (AsyncSession.check_drift a) http = Session.check_drift s http.
Proof.
  unfold AsyncSession.check_drift, Session.check_drift. session_lock_step.
Qed.

Lemma async_session_get_graph :
  run (AsyncSession.get_graph a) http = Session.get_graph s http.
Proof.
  unfold AsyncSession.get_graph, Session.get_graph. session_lock_step.
Qed.

Lemma async_session_end :
  run (AsyncSession.end_ a) http = Session.end_ s http.
Proof. unfold AsyncSession.end_, Session.end_. session_lock_step. Qed.

End Agreement.

(** C9.  Over any connection, each operation of the asynchronous client,
    run to completion, sends the requests and ends with the value or the
    exception of the same operation of the synchronous client; the sessions
    the two [create_session] return are paired, and on paired sessions the
    five session operations agree in the same way. *)
Theorem sync_and_async_agree (L : Lax) (F : Format) (http : Transport) :
  (forall message provider,
     run (AsyncClient.parse message provider) http
     = Client.parse message provider http)
  /\ (forall session_id,
        paired_outcomes (run (AsyncClient.create_session session_id) http)
          (Client.create_session session_id http))
  /\ run AsyncClient.list_sessions http = Client.list_sessions http
  /\ run AsyncClient.get_usage http = Client.get_usage http
  /\ (forall a s, paired a s ->
        (forall message provider,
           run (AsyncSession.parse a message provider) http
           = Session.parse s message provider http)
        /\ (forall response role,
              run (AsyncSession.update a response role) http
              = Session.update s response role http)
        /\ run (AsyncSession.check_drift a) http = Session.check_drift s http
        /\ run (AsyncSession.get_graph a) http = Session.get_graph s http
        /\ run (AsyncSession.end_ a) http = Session.end_ s http).
Proof.
  repeat match goal with |- _ /\ _ => split end.
  - apply async_parse_is_parse.
  - apply async_create_session_is_create_session.
  - apply async_list_sessions_is_list_sessions.
  - apply async_get_usage_is_get_usage.
  - intros a s same.
    repeat match goal with |- _ /\ _ => split end; intros.
    + now apply async_session_parse.
    + now apply async_session_update.
    + now apply async_session_check_drift.
    + now apply async_session_get_graph.
    + now apply async_session_end.
Qed.

Lemma sync_and_async_agree_witness :
  paired
    {| AsyncSession._client := AsyncClient._request;
       AsyncSession.session_id := JStr "sess_test123" |}
    {| Session._client := Client._request;
       Session.session_id := JStr "sess_test123" |}
  /\ run (AsyncSession.end_ (F := Samples.opaque_format)
            {| AsyncSession._client := AsyncClient._request;
               AsyncSession.session_id := JStr "sess_test123" |})
       (answering 409 (JObj [("error", JObj Samples.session_ended_fields)]))
     = Session.end_ (F := Samples.opaque_format)
         {| Session._client := Client._request;
            Session.session_id := JStr "sess_test123" |}
         (answering 409 (JObj [("error", JObj Samples.session_ended_fields)])).
Proof.
  assert (same : paired
            {| AsyncSession._client := AsyncClient._request;
               AsyncSession.session_id := JStr "sess_test123" |}
            {| Session._client := Client._request;
               Session.session_id := JStr "sess_test123" |})
    by (repeat split).
  split; [exact same | ].
  apply (sync_and_async_agree Samples.native_only Samples.opaque_format
           (answering 409 (JObj [("error", JObj Samples.session_ended_fields)]))).
  exact same.
Defined.

Example test_session_ended :
  Session.end_ (F := Samples.opaque_format)
    {| Session._client := Client._request;
       Session.session_id := JStr "sess_test123" |}
    (answering 409 (JObj [("error", JObj Samples.session_ended_fields)]))
  = ( [ {| method := "POST"; path := "/v1/sessions/sess_test123/end";
           json_kw := Some (JObj []) |} ],
      Raise (ApiError {| cls := SessionEndedError;
                         code := JStr "session_ended"; status := 409;
                         message := JStr "Already ended";
                         details := JNull |}) ).
Proof. reflexivity. Qed.

Example test_async_create_session :
  run (AsyncClient.create_session None)
    (answering 200 (JObj [("session_id", JStr "sess_test123")]))
  = ( [ {| method := "POST"; path := "/v1/sessions";
           json_kw := Some (JObj []) |} ],
      Ok {| AsyncSession._client := AsyncClient._request;
            AsyncSession.session_id := JStr "sess_test123" |} ).
Proof. reflexivity. Qed.

(** *** What goes out *)

Lemma request_sent method path json http :
  fst (Client._request method path json http)
  = [ {| method := method; path := path; json_kw := json |} ].
Proof.
  unfold Client._request, Http.bind, request, lift, ret.
  destruct (http _) as [res | e]; [ | reflexivity].
  destruct (negb (is_success res)); [ | reflexivity].
  destruct (res_json res) as [body | e]; [ | reflexivity].
  destruct (Errors.raise_for_status _ body); reflexivity.
Qed.

Lemma lift_sent {A} (r : result A) http : fst (lift r http) = [].
Proof. reflexivity. Qed.

Lemma ret_sent {A} (a : A) http : fst (ret a http) = [].
Proof. reflexivity. Qed.

Lemma bind_quiet {A B} (m : io A) (f : A -> io B) http :
  fst (m http) = [] -> (forall a, fst (f a http) = []) ->
  fst (Http.bind m f http) = [].
Proof.
  intros Hm Hf. unfold Http.bind.
  destruct (m http) as [sent [a | e]]; simpl in *; [ | exact Hm].
  specialize (Hf a). destruct (f a http); simpl in *. now subst.
Qed.

Lemma bind_sent {A B} (m : io A) (f : A -> io B) http :
  (forall a, fst (f a http) = []) ->
  fst (Http.bind m f http) = fst (m http).
Proof.
  intros Hf. unfold Http.bind.
  destruct (m http) as [sent [a | e]]; simpl; [ | reflexivity].
  specialize (Hf a). destruct (f a http); simpl in *. subst.
  apply app_nil_r.
Qed.

(** After the request, every operation only decodes. *)
Ltac one_request :=
  rewrite bind_sent;
  [ apply request_sent
  | intros ?;
    repeat (apply bind_quiet; [apply lift_sent | intros ?]);
    first [apply lift_sent | apply ret_sent] ].

Lemma parse_body_eq message provider :
  (let body := [("message", JStr message)] in
   match provider with
   | Some p => dict_set "provider" (JStr p) body
   | None => body
   end) = parse_request_body message provider.
Proof. destruct provider; reflexivity. Qed.

(** C8.  The four [parse] operations send one POST request whose body
    holds the key [message] alone when no provider is given, and the keys
    [message] and [provider] when one is: an absent provider is left out
    of the body, not sent as null. *)
Theorem parse_sends_message_and_optional_provider
    (L : Lax) (F : Format) (http : Transport)
    (message : string) (provider : option string) (sid : json) :
  dict_keys (parse_request_body message provider)
    = match provider with
      | None => ["message"]
      | Some _ => ["message"; "provider"]
      end
  /\ dict_get "message" (parse_request_body message provider)
     = Some (JStr message)
  /\ dict_get "provider" (parse_request_body message provider)
     = option_map JStr provider
  /\ fst (Client.parse message provider http)
     = [ {| method := "POST"; path := "/v1/parse";
            json_kw := Some (JObj (parse_request_body message provider)) |} ]
  /\ fst (run (AsyncClient.parse message provider) http)
     = [ {| method := "POST"; path := "/v1/parse";
            json_kw := Some (JObj (parse_request_body message provider)) |} ]
  /\ fst (Session.parse
            {| Session._client := Client._request;
               Session.session_id := sid |} message provider http)
     = [ {| method := "POST";
            path := "/v1/sessions/" ++ format sid ++ "/parse";
            json_kw := Some (JObj (parse_request_body message provider)) |} ]
  /\ fst (run (AsyncSession.parse
                 {| AsyncSession._client := AsyncClient._request;
                    AsyncSession.session_id := sid |} message provider) http)
     = [ {| method := "POST";
            path := "/v1/sessions/" ++ format sid ++ "/parse";
            json_kw := Some (JObj (parse_request_body message provider)) |} ].
Proof.
  assert (Hsync : fst (Client.parse message provider http)
     = [ {| method := "POST"; path := "/v1/parse";
            json_kw := Some (JObj (parse_request_body message provider)) |} ]).
  { unfold Client.parse. rewrite parse_body_eq. one_request. }
  assert (Hsession : fst (Session.parse
            {| Session._client := Client._request;
               Session.session_id := sid |} message provider http)
     = [ {| method := "POST";
            path := "/v1/sessions/" ++ format sid ++ "/parse";
            json_kw := Some (JObj (parse_request_body message provider)) |} ]).
  { unfold Session.parse, Session._request. rewrite parse_body_eq.
    cbn [Session._client Session.session_id]. one_request. }
  repeat match goal with |- _ /\ _ => split end.
  - destruct provider; reflexivity.
  - destruct provider; reflexivity.
  - destruct provider; reflexivity.
  - exact Hsync.
  - now rewrite async_parse_is_parse.
  - exact Hsession.
  - rewrite (async_session_parse http
               {| AsyncSession._client := AsyncClient._request;
                  AsyncSession.session_id := sid |}
               {| Session._client := Client._request;
                  Session.session_id := sid |});
      [exact Hsession | repeat split].
Qed.

Example test_parse_request :
  fst (Client.parse (L := Samples.native_only) "Refactor auth module" None
         (answering 200 (JObj Samples.SAMPLE_PARSE_RESPONSE)))
  = [ {| method := "POST"; path := "/v1/parse";
         json_kw := Some (JObj [("message", JStr "Refactor auth module")]) |} ].
Proof. reflexivity. Qed.

Example test_parse_with_provider_request :
  fst (Client.parse (L := Samples.native_only) "hello" (Some "openai")
         (answering 200 (JObj Samples.SAMPLE_PARSE_RESPONSE)))
  = [ {| method := "POST"; path := "/v1/parse";
         json_kw := Some (JObj [("message", JStr "hello");
                                ("provider", JStr "openai")]) |} ].
Proof. reflexivity. Qed.

(** *** Decoding the response *)

Lemma success_is_success status body :
  success status ->
  is_success {| status_code := status; content := body |} = true.
Proof.
  unfold success, is_success; simpl. intros [Hlo Hhi].
  apply andb_true_iff. split; [apply Z.leb_le | apply Z.ltb_lt]; assumption.
Qed.

(** Over a connection that answers with a success, [_request] hands the
    response back. *)
Lemma request_answered status body method path json :
  success status ->
  Client._request method path json (answering status body)
  = ( [ {| method := method; path := path; json_kw := json |} ],
      Ok {| status_code := status; content := Some body |} ).
Proof.
  intros Hs. unfold Client._request, Http.bind, request, answering, ret.
  now rewrite (success_is_success status (Some body) Hs).
Qed.

Ltac answered Hs :=
  unfold Http.bind; rewrite (request_answered _ _ _ _ _ Hs);
  unfold lift, res_json; cbn [content Py.get Py.kwargs snd].

(** C5.  For the one-shot parse, the session parse and the session
    [get_graph], in either client, a success response that nests the graph
    object under [graph] and one that is the graph object itself decode
    alike: both results are what the [IntentGraph] model makes of the graph
    object. *)
Theorem nested_and_flat_graphs_decode_alike
    (L : Lax) (F : Format) (status : Z) (graph wrapper : dict)
    (message : string) (provider : option string)
    (a : AsyncSession.t) (s : Session.t) :
  success status ->
  dict_get "graph" graph = None ->
  dict_get "graph" wrapper = Some (JObj graph) ->
  paired a s ->
  decodes_graph (Client.parse message provider) status wrapper graph
  /\ decodes_graph (run (AsyncClient.parse message provider))
       status wrapper graph
  /\ decodes_graph (Session.parse s message provider) status wrapper graph
  /\ decodes_graph (run (AsyncSession.parse a message provider))
       status wrapper graph
  /\ decodes_graph (Session.get_graph s) status wrapper graph
  /\ decodes_graph (run (AsyncSession.get_graph a)) status wrapper graph.
Proof.
  intros Hs Hflat Hnested same.
  unfold decodes_graph.
  rewrite !async_parse_is_parse.
  rewrite !(async_session_parse _ a s same).
  rewrite !(async_session_get_graph _ a s same).
  destruct same as (_ & _ & Hclient).
  unfold Client.parse, Session.parse, Session.get_graph, Session._request.
  rewrite Hclient.
  repeat match goal with |- _ /\ _ => split end;
    answered Hs; rewrite ?Hflat, ?Hnested; cbn [Py.kwargs];
    destruct (IntentGraph.validate graph); reflexivity.
Qed.

Lemma nested_and_flat_graphs_decode_alike_witness :
  success 200
  /\ dict_get "graph" Samples.SAMPLE_GRAPH = None
  /\ dict_get "graph" Samples.SAMPLE_PARSE_RESPONSE
     = Some (JObj Samples.SAMPLE_GRAPH)
  /\ decodes_graph (L := Samples.native_only)
       (Client.parse (L := Samples.native_only) "Refactor auth module" None)
       200 Samples.SAMPLE_PARSE_RESPONSE Samples.SAMPLE_GRAPH.
Proof.
  assert (Hs : success 200) by (unfold success; lia).
  split; [exact Hs | ].
  split; [reflexivity | ].
  split; [reflexivity | ].
  apply (nested_and_flat_graphs_decode_alike Samples.native_only
           Samples.opaque_format 200 Samples.SAMPLE_GRAPH
           Samples.SAMPLE_PARSE_RESPONSE "Refactor auth module" None
           {| AsyncSession._client := AsyncClient._request;
              AsyncSession.session_id := JStr "sess_test123" |}
           {| Session._client := Client._request;
              Session.session_id := JStr "sess_test123" |});
    [exact Hs | reflexivity | reflexivity | repeat split].
Defined.

(** The scenario of section 8: the sample response decodes to a graph. *)
Example test_parse :
  option_map
    (fun g => (IntentGraph.root_goal g, List.length (IntentGraph.sub_goals g),
               IntentMeta.confidence (IntentGraph.meta g)))
    (match snd (Client.parse (L := Samples.native_only)
                  "Refactor auth module" None
                  (answering 200 (JObj Samples.SAMPLE_PARSE_RESPONSE))) with
     | Ok g => Some g
     | Raise _ => None
     end)
    = Some ("Refactor auth module", 1%nat, 85 # 100).
Proof. reflexivity. Qed.

(** A top-level graph object that has a key [graph] of its own is taken
    for the nested shape. *)
Example graph_key_inside_a_flat_graph :
  snd (Client.parse (L := Samples.native_only) "m" None
         (answering 200
            (JObj (("graph", JInt 1) :: Samples.SAMPLE_GRAPH))))
  = Raise TypeError.
Proof. reflexivity. Qed.

(** C2.  [list_sessions] reads the response with
    [res.json().get("sessions", res.json())]: the default argument is there
    for a body that is the bare sequence, but a list has no [get], so on
    that body the call ends in [AttributeError] where the wrapped body
    yields the sessions.  Both clients do so. *)
Theorem list_sessions_on_a_bare_sequence :
  Client.list_sessions (L := Samples.native_only)
    (answering 200 (JArr [JObj Samples.session_s1]))
  = ( [ {| method := "GET"; path := "/v1/sessions"; json_kw := None |} ],
      Raise AttributeError )
  /\ run (AsyncClient.list_sessions (L := Samples.native_only))
       (answering 200 (JArr [JObj Samples.session_s1]))
     = ( [ {| method := "GET"; path := "/v1/sessions"; json_kw := None |} ],
         Raise AttributeError )
  /\ Client.list_sessions (L := Samples.native_only)
       (answering 200 (JObj [("sessions", JArr [JObj Samples.session_s1])]))
     = ( [ {| method := "GET"; path := "/v1/sessions"; json_kw := None |} ],
         Ok [ {| SessionInfo.session_id := "s1";
                 SessionInfo.status := "active";
                 SessionInfo.turn_count := 2;
                 SessionInfo.created_at := "2026-01-01T00:00:00Z";
                 SessionInfo.updated_at := "2026-01-01T00:01:00Z" |} ] ).
Proof. repeat split. Qed.

(** The same holds whatever the sequence and whatever the coercions. *)
Lemma list_sessions_never_takes_a_list (L : Lax) (status : Z) (l : list json) :
  success status ->
  snd (Client.list_sessions (answering status (JArr l)))
  = Raise AttributeError.
Proof.
  intros Hs. unfold Client.list_sessions. answered Hs. reflexivity.
Qed.

(* ================================================================= *)
(** ** Importing the package (__init__.py) *)

Import Package.

(** [types.py] binds none of the three names [__init__.py] asks of it. *)
Lemma types_namespace (env : site) (fuel : nat) (stack : in_progress)
    (ns : namespace) :
  running "xeroml.types" stack = None ->
  import_module env fuel stack "xeroml.types" = Some (Ok ns) ->
  ns "DriftEvent" = false
  /\ ns "GraphTurn" = false
  /\ ns "SessionHistoryResponse" = false.
Proof.
  intros Hrun.
  destruct fuel as [ | fuel]; [discriminate | ].
  cbn -[find bound running]. rewrite Hrun.
  repeat match goal with
         | |- context [match running ?m stack with _ => _ end] =>
             destruct (running m stack)
         | |- context [import_module env fuel ?st ?m] =>
             destruct (import_module env fuel st m) as [[? | ?] | ];
             try discriminate
         | |- context [find ?f ?l] =>
             destruct (find f l); try discriminate
         end;
    intros H; injection H as <-; repeat split.
Qed.

(** [import xeroml] never ends with a namespace. *)
Lemma import_xeroml_never_succeeds (env : site) (fuel : nat) (ns : namespace) :
  import_xeroml env fuel <> Some (Ok ns).
Proof.
  unfold import_xeroml.
  destruct fuel as [ | fuel']; [discriminate | ].
  cbn -[find bound].
  repeat match goal with
         | |- context [match import_module env fuel' ?st ?m with _ => _ end] =>
             let E := fresh "E" in
             destruct (import_module env fuel' st m) as [[? | ?] | ] eqn:E;
             try discriminate
         | |- context [match find ?f ?l with _ => _ end] =>
             let E := fresh "E" in
             destruct (find f l) eqn:E; try discriminate
         end.
  match goal with
  | E : import_module env fuel' _ "xeroml.types" = Some (Ok ?a),
    E' : find _ _ = None |- _ =>
      apply types_namespace in E as (E & _); [ | reflexivity];
      apply find_none with (x := "DriftEvent") in E';
      [rewrite E in E'; discriminate E' | simpl; tauto]
  end.
Qed.

(** C10.  Importing the package never succeeds: whatever is installed
    around it and however deep imports may nest, [import xeroml] does not
    end with a namespace, and neither does the import of any module of the
    package, since Python runs [xeroml/__init__.py] first.  With every
    dependency installed each of these imports ends in the [ImportError] for
    [DriftEvent], the first of the three names [__init__.py] imports from
    [xeroml.types] that [types.py] does not bind; [GraphTurn] and
    [SessionHistoryResponse] are the others. *)
Theorem import_xeroml_fails (env : site) (fuel : nat) :
  (forall ns, import_xeroml env fuel <> Some (Ok ns))
  /\ (exists e, import_xeroml env (5 + fuel) = Some (Raise e))
  /\ import_xeroml complete_site (5 + fuel)
     = Some (Raise (ImportError "DriftEvent" "xeroml.types"))
  /\ (forall m ns, In m package_modules ->
        import_module env fuel [] m <> Some (Ok ns))
  /\ Forall (fun m => import_module complete_site (6 + fuel) [] m
                      = Some (Raise (ImportError "DriftEvent" "xeroml.types")))
       package_modules
  /\ (exists ns,
        import_module complete_site (2 + fuel) [("xeroml", [])] "xeroml.types"
        = Some (Ok ns)
        /\ filter (fun name => negb (ns name))
             [ "CreditInfo"; "DriftEvent"; "DriftReport"; "GraphTurn";
               "IntentGraph"; "IntentMeta"; "LatentStates"; "ParseResponse";
               "SessionHistoryResponse"; "SessionInfo"; "SubGoal";
               "UsageInfo"; "UsageMonth" ]
           = ["DriftEvent"; "GraphTurn"; "SessionHistoryResponse"]).
Proof.
  repeat match goal with |- _ /\ _ => split end.
  - intros ns. apply import_xeroml_never_succeeds.
  - unfold import_xeroml. cbn.
    repeat (match goal with
            | |- context [match env ?m with _ => _ end] =>
                destruct (env m) as [? | ]
            | |- context [if negb (?a ?n) then _ else _] =>
                destruct (a n)
            end; cbn).
    all: eexists; reflexivity.
  - reflexivity.
  - intros m ns Hm.
    destruct Hm as [<- | Hm]; [apply import_xeroml_never_succeeds | ].
    destruct fuel as [ | fuel']; [discriminate | ].
    pose proof (import_xeroml_never_succeeds env fuel') as Hinit.
    unfold import_xeroml in Hinit.
    repeat (destruct Hm as [<- | Hm];
            [cbn -[find bound];
             destruct (import_module env fuel' [] "xeroml") as [[a | e] | ];
             [now destruct (Hinit a) | discriminate | discriminate] | ]).
    destruct Hm.
  - repeat constructor.
  - eexists. split; reflexivity.
Qed.

Example import_needs_httpx :
  import_xeroml
    (fun m => if String.eqb m "httpx" then None else Some (fun _ => true)) 5
  = Some (Raise (ModuleNotFoundError "httpx")).
Proof. reflexivity. Qed.

Example import_of_a_submodule_runs_the_package_first :
  import_module complete_site 6 [] "xeroml.errors"
  = Some (Raise (ImportError "DriftEvent" "xeroml.types")).
Proof. reflexivity. Qed.

(* ================================================================= *)
(** ** Beyond the specification: what the code does at its edges *)

Import Props.

(** *** The classifier and the request executor *)

Lemma raise_for_status_raises status body :
  exists e, Errors.raise_for_status status body = Raise e.
Proof.
  unfold Errors.raise_for_status.
  destruct (Py.get body "error" body) as [error_data | e]; simpl; eauto.
  destruct (Py.get error_data "message" _) as [message | e]; simpl; eauto.
  destruct (Py.get error_data "details" _) as [details | e]; simpl; eauto.
  destruct (Errors.is_XeroMLError _).
  - destruct (Py.get error_data "code" _); simpl; eauto.
  - destruct (Errors.construct _ _ _); simpl; eauto.
Qed.

(** X1.  [raise_for_status] never returns.  On an error body (a dict whose
    [error] entry, if any, is a dict) it raises an [XeroMLError] whose
    [status] is the status code it was given; on anything else (a list, a
    string, an [error] entry that is a string or null) it ends in the
    [AttributeError] of a [.get]. *)
Theorem raise_for_status_never_returns (status_code : Z) (body : json) :
  exists e,
    Errors.raise_for_status status_code body = Raise e
    /\ match error_fields body with
       | Some _ => exists err, e = ApiError err /\ Py.status err = status_code
       | None => e = AttributeError
       end.
Proof.
  destruct (error_fields body) as [d | ] eqn:Hd.
  - rewrite (raise_for_status_on_fields status_code body d Hd). cbv zeta.
    destruct (Errors.map_get status_code Errors._ERROR_MAP XeroMLError) eqn:Hc;
      cbn [Errors.is_XeroMLError Errors.construct Errors.subclass_fields Py.bind];
      eexists; (split; [reflexivity | ]); eexists; (split; [reflexivity | ]);
      cbn [Errors.XeroMLError_init Py.status];
      first
        [ reflexivity
        | revert Hc; unfold Errors._ERROR_MAP; cbn [Errors.map_get];
          repeat match goal with
                 | |- context [Z.eqb status_code ?k] =>
                     destruct (Z.eqb_spec status_code k)
                 end;
          intros Hc; try discriminate Hc; subst; reflexivity ].
  - exists AttributeError. split; [ | reflexivity].
    unfold error_fields in Hd. unfold Errors.raise_for_status.
    destruct body as [ | | | | | | top]; try reflexivity.
    cbn [Py.get Py.bind].
    destruct (dict_get "error" top) as [nested | ]; [ | discriminate].
    destruct nested; try discriminate; reflexivity.
Qed.

Lemma not_success_is_not_success status content :
  ~ success status ->
  is_success {| status_code := status; content := content |} = false.
Proof.
  unfold success, is_success; simpl. intros Hn.
  destruct (200 <=? status) eqn:E1; [ | reflexivity].
  destruct (status <? 300) eqn:E2; [ | reflexivity].
  apply Z.leb_le in E1. apply Z.ltb_lt in E2. now destruct Hn.
Qed.

(** X2.  [_request] sends exactly one request, whatever comes back, and
    returns a response only when it is a 2xx one: every other answer ends in
    an exception.  The asynchronous [_request] does the same. *)
Theorem request_returns_success_responses_only
    (method path : string) (json : option json) (http : Transport) :
  fst (Client._request method path json http)
    = [ {| method := method; path := path; json_kw := json |} ]
  /\ (forall res,
        snd (Client._request method path json http) = Ok res
        <-> http {| method := method; path := path; json_kw := json |} = Ok res
            /\ is_success res = true)
  /\ run (AsyncClient._request method path json) http
     = Client._request method path json http.
Proof.
  split; [apply request_sent | ].
  split; [ | apply async_request_is_request].
  intros res. unfold Client._request, Http.bind, request, lift, ret.
  destruct (http _) as [res' | e]; cbn [snd fst].
  - destruct (is_success res') eqn:Hs; cbn [negb].
    + cbn [snd]. split.
      * intros [= ->]. now split.
      * intros [[= ->] _]. reflexivity.
    + destruct (res_json res') as [body | e]; cbn [snd].
      * destruct (raise_for_status_raises (status_code res') body) as [e He].
        rewrite He. cbn [snd]. split; [discriminate | ].
        intros [[= ->] H]. congruence.
      * split; [discriminate | ]. intros [[= ->] H]. congruence.
  - split; [discriminate | intros [H _]; discriminate H].
Qed.

(** *** Failures surface unchanged *)

Lemma bind_raises {A B} (m : io A) (f : A -> io B) http e :
  snd (m http) = Raise e -> snd (Http.bind m f http) = Raise e.
Proof.
  unfold Http.bind. destruct (m http) as [sent [a | e']]; simpl; intros H;
    [discriminate H | now injection H as ->].
Qed.

(** Whatever makes the request step fail is the outcome of every
    operation: none of them catches, retries or rewrites an exception. *)
Lemma request_failure_surfaces {L : Lax} {F : Format}
    (http : Transport) (e : exn) (a : AsyncSession.t) (s : Session.t) :
  (forall method path json,
     snd (Client._request method path json http) = Raise e) ->
  paired a s ->
  every_operation_ends_in e http a s.
Proof.
  intros Hreq same.
  assert (Hcreate : forall session_id,
            ends_in e (Client.create_session session_id http)).
  { intros. unfold ends_in, Client.create_session. apply bind_raises, Hreq. }
  unfold every_operation_ends_in, ends_in.
  repeat match goal with
         | |- _ /\ _ => split
         | |- forall _, _ => intro
         end;
    rewrite ?async_parse_is_parse, ?async_list_sessions_is_list_sessions,
      ?async_get_usage_is_get_usage,
      ?(async_session_parse http a s same),
      ?(async_session_update http a s same),
      ?(async_session_check_drift http a s same),
      ?(async_session_get_graph http a s same),
      ?(async_session_end http a s same);
    try (unfold Client.parse, Client.list_sessions, Client.get_usage,
           Session.parse, Session.update, Session.check_drift,
           Session.get_graph, Session.end_, Session._request;
         let Hc := fresh "Hc" in
         destruct same as (_ & _ & Hc); rewrite ?Hc;
         apply bind_raises, Hreq).
  destruct (async_create_session_is_create_session http session_id)
      as [_ Hout].
    specialize (Hcreate session_id). unfold ends_in in Hcreate.
    rewrite Hcreate in Hout.
    destruct (snd (run (AsyncClient.create_session session_id) http));
      [destruct Hout | now subst].
Qed.

(** X3.  When the service answers with a status outside 2xx and a JSON
    body, every operation of both clients ends in exactly the exception
    [raise_for_status] raises for that status and body; nothing of the
    response is decoded. *)
Theorem every_operation_raises_the_classified_error
    (L : Lax) (F : Format) (status : Z) (body : json)
    (a : AsyncSession.t) (s : Session.t) :
  ~ success status ->
  paired a s ->
  exists e,
    Errors.raise_for_status status body = Raise e
    /\ every_operation_ends_in e (answering status body) a s.
Proof.
  intros Hs same.
  destruct (raise_for_status_raises status body) as [e He].
  exists e. split; [exact He | ].
  apply request_failure_surfaces; [ | exact same].
  intros. unfold Client._request, Http.bind, request, answering, lift, ret.
  rewrite (not_success_is_not_success status (Some body) Hs).
  cbn [negb res_json content status_code]. now rewrite He.
Qed.

Lemma every_operation_raises_the_classified_error_witness :
  exists e,
    Errors.raise_for_status 409
      (JObj [("error", JObj Samples.session_ended_fields)]) = Raise e
    /\ every_operation_ends_in (L := Samples.native_only)
         (F := Samples.opaque_format) e
         (answering 409 (JObj [("error", JObj Samples.session_ended_fields)]))
         {| AsyncSession._client := AsyncClient._request;
            AsyncSession.session_id := JStr "sess_test123" |}
         {| Session._client := Client._request;
            Session.session_id := JStr "sess_test123" |}.
Proof.
  apply (every_operation_raises_the_classified_error Samples.native_only
           Samples.opaque_format 409).
  - unfold success. lia.
  - repeat split.
Defined.

(** X4.  When the service answers with a status outside 2xx and a body
    that is not JSON, every operation ends in the [JSONDecodeError] of
    [res.json()]: the classifier is never reached. *)
Theorem every_operation_fails_on_a_non_json_error_body
    (L : Lax) (F : Format) (status : Z)
    (a : AsyncSession.t) (s : Session.t) :
  ~ success status ->
  paired a s ->
  every_operation_ends_in JSONDecodeError (answering_raw status None) a s.
Proof.
  intros Hs same.
  apply request_failure_surfaces; [ | exact same].
  intros. unfold Client._request, Http.bind, request, answering_raw, lift, ret.
  now rewrite (not_success_is_not_success status None Hs).
Qed.

Lemma every_operation_fails_on_a_non_json_error_body_witness :
  every_operation_ends_in (L := Samples.native_only)
    (F := Samples.opaque_format) JSONDecodeError (answering_raw 502 None)
    {| AsyncSession._client := AsyncClient._request;
       AsyncSession.session_id := JStr "sess_test123" |}
    {| Session._client := Client._request;
       Session.session_id := JStr "sess_test123" |}.
Proof.
  apply (every_operation_fails_on_a_non_json_error_body Samples.native_only
           Samples.opaque_format 502).
  - unfold success. lia.
  - repeat split.
Defined.

(** X5.  When httpx itself raises (no connection, timeout), every
    operation ends in that very exception. *)
Theorem every_operation_passes_on_what_httpx_raises
    (L : Lax) (F : Format) (e : exn)
    (a : AsyncSession.t) (s : Session.t) :
  paired a s ->
  every_operation_ends_in e (raising e) a s.
Proof.
  intros same. apply request_failure_surfaces; [ | exact same].
  reflexivity.
Qed.

Lemma every_operation_passes_on_what_httpx_raises_witness :
  every_operation_ends_in (L := Samples.native_only)
    (F := Samples.opaque_format) (TransportError "timeout")
    (raising (TransportError "timeout"))
    {| AsyncSession._client := AsyncClient._request;
       AsyncSession.session_id := JStr "sess_test123" |}
    {| Session._client := Client._request;
       Session.session_id := JStr "sess_test123" |}.
Proof.
  apply (every_operation_passes_on_what_httpx_raises Samples.native_only
           Samples.opaque_format (TransportError "timeout")).
  repeat split.
Defined.

(** *** One round trip per operation *)

(** X6.  Each of the seven operations besides [parse] sends exactly one
    request, whatever the connection answers: [create_session] posts
    [{}] or [{"session_id": id}] (the key is left out when no identifier is
    given), [list_sessions] and [get_usage] send a GET without a body, and
    the session operations address [/v1/sessions/<id>/...], [update] with
    the role ["assistant"] unless one is given and [end] with [{}].  The
    asynchronous operations send the same. *)
Theorem one_request_per_operation
    (L : Lax) (F : Format) (http : Transport)
    (a : AsyncSession.t) (s : Session.t)
    (session_id : option string) (response : string) (role : option string) :
  paired a s ->
  (fst (Client.create_session session_id http)
   = [ {| method := "POST"; path := "/v1/sessions";
          json_kw := Some (JObj match session_id with
                                | Some id => [("session_id", JStr id)]
                                | None => []
                                end) |} ]
   /\ fst (run (AsyncClient.create_session session_id) http)
      = fst (Client.create_session session_id http))
  /\ (fst (Client.list_sessions http)
      = [ {| method := "GET"; path := "/v1/sessions"; json_kw := None |} ]
      /\ fst (run AsyncClient.list_sessions http)
         = fst (Client.list_sessions http))
  /\ (fst (Client.get_usage http)
      = [ {| method := "GET"; path := "/v1/usage"; json_kw := None |} ]
      /\ fst (run AsyncClient.get_usage http) = fst (Client.get_usage http))
  /\ (fst (Session.update s response role http)
      = [ {| method := "POST";
             path := "/v1/sessions/" ++ format (Session.session_id s)
                     ++ "/update";
             json_kw :=
               Some (JObj [("response", JStr response);
                           ("role", JStr match role with
                                         | Some r => r
                                         | None => "assistant"
                                         end)]) |} ]
      /\ fst (run (AsyncSession.update a response role) http)
         = fst (Session.update s response role http))
  /\ (fst (Session.check_drift s http)
      = [ {| method := "GET";
             path := "/v1/sessions/" ++ format (Session.session_id s)
                     ++ "/drift";
             json_kw := None |} ]
      /\ fst (run (AsyncSession.check_drift a) http)
         = fst (Session.check_drift s http))
  /\ (fst (Session.get_graph s http)
      = [ {| method := "GET";
             path := "/v1/sessions/" ++ format (Session.session_id s)
                     ++ "/graph";
             json_kw := None |} ]
      /\ fst (run (AsyncSession.get_graph a) http)
         = fst (Session.get_graph s http))
  /\ (fst (Session.end_ s http)
      = [ {| method := "POST";
             path := "/v1/sessions/" ++ format (Session.session_id s)
                     ++ "/end";
             json_kw := Some (JObj []) |} ]
      /\ fst (run (AsyncSession.end_ a) http) = fst (Session.end_ s http)).
Proof.
  intros same.
  rewrite async_list_sessions_is_list_sessions, async_get_usage_is_get_usage,
    (async_session_update http a s same),
    (async_session_check_drift http a s same),
    (async_session_get_graph http a s same),
    (async_session_end http a s same).
  destruct (async_create_session_is_create_session http session_id)
    as [Hsent _].
  destruct same as (_ & _ & Hclient).
  unfold Client.create_session, Client.list_sessions, Client.get_usage,
    Session.update, Session.check_drift, Session.get_graph, Session.end_,
    Session._request in *.
  rewrite Hclient.
  repeat match goal with |- _ /\ _ => split end;
    try reflexivity; try exact Hsent; one_request.
Qed.

Lemma one_request_per_operation_witness :
  fst (Session.update (F := Samples.opaque_format)
         {| Session._client := Client._request;
            Session.session_id := JStr "sess_test123" |}
         "Here is the refactored code..." None (answering 200 (JObj [])))
  = [ {| method := "POST"; path := "/v1/sessions/sess_test123/update";
         json_kw :=
           Some (JObj [("response", JStr "Here is the refactored code...");
                       ("role", JStr "assistant")]) |} ].
Proof.
  apply (one_request_per_operation Samples.native_only Samples.opaque_format
           (answering 200 (JObj []))
           {| AsyncSession._client := AsyncClient._request;
              AsyncSession.session_id := JStr "sess_test123" |}
           {| Session._client := Client._request;
              Session.session_id := JStr "sess_test123" |}
           None "Here is the refactored code..." None).
  repeat split.
Defined.

(** *** Reading a success response *)

Lemma request_answered_raw status content method path json :
  success status ->
  Client._request method path json (answering_raw status content)
  = ( [ {| method := method; path := path; json_kw := json |} ],
      Ok {| status_code := status; content := content |} ).
Proof.
  intros Hs. unfold Client._request, Http.bind, request, answering_raw, ret.
  now rewrite (success_is_success status content Hs).
Qed.

Ltac answered_raw Hs :=
  unfold Http.bind; rewrite ?(request_answered_raw _ _ _ _ _ Hs);
  unfold lift, ret, res_json; cbn [content snd fst app].

(** X7.  [create_session] returns a session bound to the client and
    carrying the [session_id] entry of the response body, untouched and
    unchecked, whatever identifier the caller asked for; a body without that
    entry ends in [KeyError], and a body that is not an object in
    [TypeError]. *)
Theorem create_session_takes_the_identifier_of_the_response
    (status : Z) (body : json) (session_id : option string) :
  success status ->
  snd (Client.create_session session_id (answering status body))
  = match body with
    | JObj d =>
        match dict_get "session_id" d with
        | Some id => Ok {| Session._client := Client._request;
                           Session.session_id := id |}
        | None => Raise (KeyError "session_id")
        end
    | _ => Raise TypeError
    end.
Proof.
  intros Hs. unfold Client.create_session.
  change (answering status body) with (answering_raw status (Some body)).
  answered_raw Hs.
  destruct body as [ | | | | | | d]; try reflexivity.
  cbn [Py.getitem]. destruct (dict_get "session_id" d); reflexivity.
Qed.

Lemma create_session_takes_the_identifier_of_the_response_witness :
  snd (Client.create_session (Some "my_custom_id")
         (answering 200 (JObj [("session_id", JStr "sess_test123")])))
  = Ok {| Session._client := Client._request;
          Session.session_id := JStr "sess_test123" |}.
Proof.
  apply (create_session_takes_the_identifier_of_the_response 200
           (JObj [("session_id", JStr "sess_test123")]) (Some "my_custom_id")).
  unfold success. lia.
Defined.

(** X8.  [update] and [end] never read the response: after any 2xx answer,
    also one whose body is not JSON, they return [None].  The seven
    operations that decode the body end in [JSONDecodeError] on such an
    answer. *)
Theorem update_and_end_ignore_the_body
    (L : Lax) (F : Format) (status : Z) (content : option json)
    (a : AsyncSession.t) (s : Session.t)
    (response message : string) (role provider session_id : option string) :
  success status ->
  paired a s ->
  (snd (Session.update s response role (answering_raw status content)) = Ok tt
   /\ snd (Session.end_ s (answering_raw status content)) = Ok tt
   /\ snd (run (AsyncSession.update a response role)
             (answering_raw status content)) = Ok tt
   /\ snd (run (AsyncSession.end_ a) (answering_raw status content)) = Ok tt)
  /\ ends_in JSONDecodeError
       (Client.parse message provider (answering_raw status None))
  /\ ends_in JSONDecodeError
       (Client.create_session session_id (answering_raw status None))
  /\ ends_in JSONDecodeError
       (Client.list_sessions (answering_raw status None))
  /\ ends_in JSONDecodeError (Client.get_usage (answering_raw status None))
  /\ ends_in JSONDecodeError
       (Session.parse s message provider (answering_raw status None))
  /\ ends_in JSONDecodeError
       (Session.check_drift s (answering_raw status None))
  /\ ends_in JSONDecodeError
       (Session.get_graph s (answering_raw status None)).
Proof.
  intros Hs same.
  rewrite (async_session_update _ a s same), (async_session_end _ a s same).
  destruct same as (_ & _ & Hclient).
  unfold ends_in, Client.parse, Client.create_session, Client.list_sessions,
    Client.get_usage, Session.parse, Session.update, Session.check_drift,
    Session.get_graph, Session.end_, Session._request.
  rewrite Hclient.
  repeat match goal with |- _ /\ _ => split end;
    answered_raw Hs; reflexivity.
Qed.

Lemma update_and_end_ignore_the_body_witness :
  snd (Session.end_ (F := Samples.opaque_format)
         {| Session._client := Client._request;
            Session.session_id := JStr "sess_test123" |}
         (answering_raw 204 None))
  = Ok tt.
Proof.
  apply (update_and_end_ignore_the_body Samples.native_only
           Samples.opaque_format 204 None
           {| AsyncSession._client := AsyncClient._request;
              AsyncSession.session_id := JStr "sess_test123" |}
           {| Session._client := Client._request;
              Session.session_id := JStr "sess_test123" |}
           "" "" None None None).
  - unfold success. lia.
  - repeat split.
Defined.

(** X9.  How the operations that build a model read a 2xx body.  [parse],
    the session [parse] and [get_graph] take the [graph] entry of the body
    when there is one and the body itself otherwise: a body that is not an
    object ends in [AttributeError], a [graph] entry that is not an object
    (null, a list) in [TypeError].  [check_drift] and [get_usage] take the
    body itself, and end in [TypeError] when it is not an object. *)
Theorem success_bodies_by_shape
    (L : Lax) (F : Format) (status : Z) (body : json)
    (s : Session.t) (message : string) (provider : option string) :
  success status ->
  Session._client s = Client._request ->
  snd (Client.parse message provider (answering status body))
    = unwrap_graph body
  /\ snd (Session.parse s message provider (answering status body))
     = unwrap_graph body
  /\ snd (Session.get_graph s (answering status body)) = unwrap_graph body
  /\ snd (Session.check_drift s (answering status body))
     = construct_from DriftReport.validate body
  /\ snd (Client.get_usage (answering status body))
     = construct_from UsageInfo.validate body.
Proof.
  intros Hs Hclient.
  change (answering status body) with (answering_raw status (Some body)).
  unfold Client.parse, Client.get_usage, Session.parse, Session.check_drift,
    Session.get_graph, Session._request, unwrap_graph, construct_from.
  rewrite Hclient.
  repeat match goal with |- _ /\ _ => split end;
    answered_raw Hs;
    (destruct body as [ | | | | | | d]; try reflexivity);
    cbn [Py.get Py.kwargs];
    try (destruct (dict_get "graph" d) as [[ | | | | | | g] | ];
         try reflexivity; cbn [Py.kwargs]);
    match goal with
    | |- context [IntentGraph.validate ?x] =>
        destruct (IntentGraph.validate x); reflexivity
    | |- context [DriftReport.validate ?x] =>
        destruct (DriftReport.validate x); reflexivity
    | |- context [UsageInfo.validate ?x] =>
        destruct (UsageInfo.validate x); reflexivity
    end.
Qed.

Lemma success_bodies_by_shape_witness :
  snd (Client.parse (L := Samples.native_only) "m" None
         (answering 200 (JObj [("graph", JNull)])))
  = Raise TypeError.
Proof.
  apply (success_bodies_by_shape Samples.native_only Samples.opaque_format
           200 (JObj [("graph", JNull)])
           {| Session._client := Client._request;
              Session.session_id := JStr "sess_test123" |} "m" None).
  - unfold success. lia.
  - reflexivity.
Defined.

(** *** Sequences keep their order *)

Lemma comprehension_Forall2 {A} (f : json -> result A) l r :
  Py.comprehension f l = Ok r <-> Forall2 (fun x a => f x = Ok a) l r.
Proof.
  revert r. induction l as [ | x t IH]; intros r; simpl.
  - split.
    + intros [= <-]. constructor.
    + intros H. inversion H. reflexivity.
  - destruct (f x) as [a | e] eqn:E; simpl.
    + destruct (Py.comprehension f t) as [t' | e] eqn:E'; simpl.
      * split.
        -- intros [= <-]. constructor; [exact E | now apply IH].
        -- intros H. inversion H as [ | ? b ? r' Hb Ht]; subst.
           apply IH in Ht. congruence.
      * split; [discriminate | ].
        intros H. inversion H as [ | ? b ? r' Hb Ht]; subst.
        apply IH in Ht. discriminate Ht.
    + split; [discriminate | ].
      intros H. inversion H; subst. congruence.
Qed.

Lemma v_all_Forall2 {A} (f : json -> result A) l r :
  v_all f l = Ok r <-> Forall2 (fun x a => f x = Ok a) l r.
Proof.
  revert r. induction l as [ | x t IH]; intros r; simpl.
  - split.
    + intros [= <-]. constructor.
    + intros H. inversion H. reflexivity.
  - destruct (f x) as [a | e] eqn:E; simpl.
    + destruct (v_all f t) as [t' | e] eqn:E'; simpl.
      * split.
        -- intros [= <-]. constructor; [exact E | now apply IH].
        -- intros H. inversion H as [ | ? b ? r' Hb Ht]; subst.
           apply IH in Ht. congruence.
      * split; [discriminate | ].
        intros H. inversion H as [ | ? b ? r' Hb Ht]; subst.
        apply IH in Ht. discriminate Ht.
    + split; [discriminate | ].
      intros H. inversion H; subst. congruence.
Qed.

(** X10.  [list_sessions] on a 2xx body that is an object.  With a list
    under [sessions] it returns one [SessionInfo] per element, in the order
    of the list, and only if every element is an object that validates.
    Without a [sessions] entry it iterates over the object itself, that is
    over its keys: the empty object gives the empty list, and any other
    object ends in [TypeError]. *)
Theorem list_sessions_on_an_object
    (L : Lax) (status : Z) (d : dict) :
  success status ->
  (forall l r,
     dict_get "sessions" d = Some (JArr l) ->
     snd (Client.list_sessions (answering status (JObj d))) = Ok r
     <-> Forall2 (fun x info =>
                    exists kw, x = JObj kw /\ SessionInfo.validate kw = Ok info)
           l r)
  /\ (dict_get "sessions" d = None ->
      snd (Client.list_sessions (answering status (JObj d)))
      = match d with
        | [] => Ok []
        | _ :: _ => Raise TypeError
        end).
Proof.
  intros Hs.
  change (answering status (JObj d))
    with (answering_raw status (Some (JObj d))).
  unfold Client.list_sessions. answered_raw Hs. cbn [Py.get].
  split.
  - intros l r ->. cbn [Py.iter].
    cbn [snd]. rewrite comprehension_Forall2.
    split; intros H; induction H as [ | x info t r' Hx _ IH]; constructor;
      try exact IH.
    + destruct x; try discriminate Hx. eauto.
    + destruct Hx as (kw & -> & Hkw). exact Hkw.
  - intros ->. destruct d as [ | [k v] t]; reflexivity.
Qed.

Lemma list_sessions_on_an_object_witness :
  snd (Client.list_sessions (L := Samples.native_only)
         (answering 200 (JObj [("items", JArr [])])))
  = Raise TypeError.
Proof.
  apply (list_sessions_on_an_object Samples.native_only 200
           [("items", JArr [])]).
  - unfold success. lia.
  - reflexivity.
Defined.

(** *** The models, field by field *)

Ltac prove_required :=
  let Hget := fresh "Hget" in
  intros ? Hget; model_rejects;
  match goal with
  | F : field _ _ _ required = Ok _ |- _ =>
      unfold field in F; rewrite Hget in F; discriminate F
  end.

(** X11.  Every field declared without a default is required: a payload
    that lacks it is rejected, whatever else it holds.  In particular a
    usage report without the nested [credits] object is rejected. *)
Theorem missing_required_field_is_rejected (L : Lax) :
  (required_field LatentStates.validate "goal_intent"
   /\ required_field LatentStates.validate "action_readiness"
   /\ required_field LatentStates.validate "ambiguity_level"
   /\ required_field LatentStates.validate "risk_sensitivity"
   /\ required_field LatentStates.validate "intent_scope")
  /\ (required_field IntentMeta.validate "confidence"
      /\ required_field IntentMeta.validate "latent_states")
  /\ (required_field SubGoal.validate "id"
      /\ required_field SubGoal.validate "goal"
      /\ required_field SubGoal.validate "priority")
  /\ (required_field IntentGraph.validate "root_goal"
      /\ required_field IntentGraph.validate "sub_goals"
      /\ required_field IntentGraph.validate "meta")
  /\ (required_field ParseResponse.validate "graph"
      /\ required_field ParseResponse.validate "request_id"
      /\ required_field ParseResponse.validate "latency_ms")
  /\ required_field DriftReport.validate "detected"
  /\ (required_field SessionInfo.validate "session_id"
      /\ required_field SessionInfo.validate "status"
      /\ required_field SessionInfo.validate "turn_count"
      /\ required_field SessionInfo.validate "created_at"
      /\ required_field SessionInfo.validate "updated_at")
  /\ (required_field CreditInfo.validate "used"
      /\ required_field CreditInfo.validate "total"
      /\ required_field CreditInfo.validate "remaining")
  /\ (required_field UsageMonth.validate "month"
      /\ required_field UsageMonth.validate "parse_calls"
      /\ required_field UsageMonth.validate "drift_checks"
      /\ required_field UsageMonth.validate "session_creates")
  /\ (required_field UsageInfo.validate "credits"
      /\ required_field UsageInfo.validate "tier"
      /\ required_field UsageInfo.validate "rate_limit").
Proof.
  repeat match goal with |- _ /\ _ => split end; prove_required.
Qed.

Lemma missing_required_field_is_rejected_witness :
  UsageInfo.validate (L := Samples.native_only)
    [("credits_used", JInt 42); ("credits_total", JInt 100);
     ("tier", JStr "free"); ("rate_limit", JInt 100)]
  = Raise ValidationError.
Proof.
  destruct (missing_required_field_is_rejected Samples.native_only)
    as (_ & _ & _ & _ & _ & _ & _ & _ & _ & Hcredits & _).
  apply Hcredits. reflexivity.
Defined.

Lemma not_a_field fields name k :
  ~ In k fields -> In name fields -> String.eqb name k = false.
Proof.
  intros Hk Hn. apply String.eqb_neq. intros ->. contradiction.
Qed.

Ltac prove_ignores_unknown :=
  let Hk := fresh "Hk" in
  intros ? ? ? Hk; unfold_models;
  repeat match goal with
         | |- context [field (dict_set ?k ?x ?d) ?g ?c ?df] =>
             rewrite (field_set_other d k g c df x)
               by (apply (not_a_field _ _ _ Hk); simpl; tauto)
         end;
  reflexivity.

(** X12.  The models ignore what they do not declare: setting in a payload
    a key that is none of the model's field names changes neither whether it
    validates nor the value it validates to. *)
Theorem unknown_fields_are_ignored (L : Lax) :
  ignores_unknown LatentStates.validate LatentStates_fields
  /\ ignores_unknown IntentMeta.validate IntentMeta_fields
  /\ ignores_unknown SubGoal.validate SubGoal_fields
  /\ ignores_unknown IntentGraph.validate IntentGraph_fields
  /\ ignores_unknown ParseResponse.validate ParseResponse_fields
  /\ ignores_unknown DriftReport.validate DriftReport_fields
  /\ ignores_unknown SessionInfo.validate SessionInfo_fields
  /\ ignores_unknown CreditInfo.validate CreditInfo_fields
  /\ ignores_unknown UsageMonth.validate UsageMonth_fields
  /\ ignores_unknown UsageInfo.validate UsageInfo_fields.
Proof.
  repeat match goal with |- _ /\ _ => split end; prove_ignores_unknown.
Qed.

Lemma unknown_fields_are_ignored_witness :
  IntentGraph.validate (L := Samples.native_only)
    (dict_set "request_id" (JStr "req_abc123") Samples.SAMPLE_GRAPH)
  = IntentGraph.validate (L := Samples.native_only) Samples.SAMPLE_GRAPH.
Proof.
  destruct (unknown_fields_are_ignored Samples.native_only)
    as (_ & _ & _ & Hgraph & _).
  apply Hgraph. simpl. intuition discriminate.
Defined.

(** *** What a validated graph is like *)

Lemma field_range_in {L : Lax} d name lo hi default q :
  field d name (v_float_range lo hi) default = Ok q ->
  (forall q0, default = Some q0 -> (lo <= q0 <= hi)%Q) ->
  (lo <= q <= hi)%Q.
Proof.
  unfold field. destruct (dict_get name d) as [v | ].
  - intros H _. unfold v_float_range in H.
    destruct (v_float v) as [q' | ]; [ | discriminate].
    cbn [Py.bind] in H.
    destruct (Qle_bool lo q' && Qle_bool q' hi) eqn:E; [ | discriminate].
    injection H as <-. now apply Qle_bool_range.
  - destruct default; simpl; [ | discriminate].
    intros [= <-] H. now apply H.
Qed.

Lemma half_in_range : (0 <= 1 # 2 <= 1)%Q.
Proof. split; unfold Qle; simpl; lia. Qed.

Lemma well_formed_children (l : list SubGoal.t) :
  Forall SubGoal_well_formed l ->
  (fix all (l : list SubGoal.t) : Prop :=
     match l with
     | [] => True
     | c :: r => SubGoal_well_formed c /\ all r
     end) l.
Proof. induction 1; simpl; auto. Qed.

Lemma Forall2_Forall_right {A B} (R : A -> B -> Prop) (P : A -> Prop)
    (Q : B -> Prop) l r :
  (forall a b, P a -> R a b -> Q b) ->
  Forall P l -> Forall2 R l r -> Forall Q r.
Proof.
  intros H HP HR. induction HR as [ | a b l r Hab _ IH]; constructor.
  - inversion HP; subst. eauto.
  - inversion HP; subst. auto.
Qed.

Lemma SubGoal_validated_is_well_formed_deep {L : Lax} v :
  (forall g, SubGoal.validate_value v = Ok g -> SubGoal_well_formed g)
  /\ (forall l, v = JArr l ->
        Forall (fun c => forall g, SubGoal.validate_value c = Ok g ->
                                   SubGoal_well_formed g) l).
Proof.
  induction v as [ | b | z | q | s | l IH | d IH] using json_nested_ind;
    try solve [split; [intros g H; discriminate H | discriminate]].
  - split; [intros g H; discriminate H | ].
    intros l' [= <-]. revert IH. apply Forall_impl. now intros c [Hc _].
  - split; [ | discriminate].
    intros g H. rewrite SubGoal_validate_value_eq in H. fields_of H.
    cbn [SubGoal_well_formed].
    split; [ | split; [ | split]].
    + eapply field_pattern_in; [eassumption | ].
      intros ? [= <-]. simpl. tauto.
    + eapply field_range_in; [eassumption | intros ? [=]].
    + eapply field_range_in; [eassumption | ].
      intros ? [= <-]. apply half_in_range.
    + apply well_formed_children.
      match goal with
      | F : field d "children" _ _ = Ok ?ch |- _ =>
          unfold field in F;
          destruct (dict_get "children" d) as [x | ] eqn:E;
          [ | injection F as <-; constructor]
      end.
      assert (Hx : forall y, x = JArr y ->
                Forall (fun c => forall g, SubGoal.validate_value c = Ok g ->
                                           SubGoal_well_formed g) y).
      { clear - E IH. induction d as [ | [k x'] r IHr]; [discriminate | ].
        cbn [dict_get] in E. inversion IH as [ | ? ? Hhd Htl]; subst.
        destruct (String.eqb "children" k).
        - injection E as <-. apply Hhd.
        - now apply IHr. }
      destruct x as [ | | | | | y | ]; try discriminate.
      cbn [v_list] in *. match goal with
      | F : v_all _ y = Ok _ |- _ => apply v_all_Forall2 in F;
          eapply Forall2_Forall_right; [ | apply (Hx y eq_refl) | exact F]
      end.
      intros c g Hc Hg. now apply Hc.
Qed.

(** X13.  The constraints hold throughout whatever the [IntentGraph] model
    returns: the confidence lies in the closed interval from 0 to 1, the
    four latent states are words of their vocabularies, and every sub-goal,
    at every depth of the [children] trees, has a status of the vocabulary
    and a priority and an uncertainty in the closed interval from 0 to 1,
    also where they were defaulted. *)
Theorem validated_graph_is_well_formed (L : Lax) (d : dict) (g : IntentGraph.t) :
  IntentGraph.validate d = Ok g -> IntentGraph_well_formed g.
Proof.
  intros H. unfold IntentGraph.validate in H. fields_of H.
  unfold IntentGraph_well_formed.
  match goal with
  | F : field d "meta" _ _ = Ok ?m |- _ =>
      unfold field in F; destruct (dict_get "meta" d) as [[ | | | | | | md] | ];
      try discriminate F; cbn [v_model] in F;
      unfold IntentMeta.validate in F; fields_of F
  end.
  match goal with
  | F : field md "latent_states" _ _ = Ok ?ls |- _ =>
      unfold field in F;
      destruct (dict_get "latent_states" md) as [[ | | | | | | ld] | ];
      try discriminate F; cbn [v_model] in F;
      unfold LatentStates.validate in F; fields_of F
  end.
  cbn [IntentGraph.meta IntentGraph.sub_goals IntentMeta.confidence
         IntentMeta.latent_states].
  unfold LatentStates_well_formed.
  cbn [LatentStates.action_readiness LatentStates.ambiguity_level
         LatentStates.risk_sensitivity LatentStates.intent_scope].
  split; [eapply field_range_in; [eassumption | intros ? [=]] | ].
  split;
    [repeat match goal with |- _ /\ _ => split end;
     (eapply field_pattern_in; [eassumption | intros ? [=]]) | ].
  match goal with
  | F : field d "sub_goals" _ _ = Ok ?sg |- _ =>
      unfold field in F;
      destruct (dict_get "sub_goals" d) as [[ | | | | | l | ] | ];
      try discriminate F; cbn [v_list] in F; apply v_all_Forall2 in F;
      induction F as [ | x c t r Hx _ IH]; constructor; [ | exact IH]
  end.
  now apply (SubGoal_validated_is_well_formed_deep x).
Qed.

Lemma validated_graph_is_well_formed_witness :
  exists g,
    IntentGraph.validate (L := Samples.native_only) Samples.SAMPLE_GRAPH = Ok g
    /\ IntentGraph_well_formed g.
Proof.
  eexists. split; [reflexivity | ].
  apply (validated_graph_is_well_formed Samples.native_only
           Samples.SAMPLE_GRAPH).
  reflexivity.
Defined.

(** X14.  The nested sequences keep the order of the payload: the
    sub-goals of a validated graph are the validated elements of its
    [sub_goals] array, one for one and in that order, and so are the
    children of a validated sub-goal ([children] absent meaning none). *)
Theorem nested_sequences_keep_their_order (L : Lax) (d : dict) :
  (forall g,
     IntentGraph.validate d = Ok g ->
     exists l,
       dict_get "sub_goals" d = Some (JArr l)
       /\ Forall2 (fun x sub_goal => SubGoal.validate_value x = Ok sub_goal)
            l (IntentGraph.sub_goals g))
  /\ (forall g,
        SubGoal.validate d = Ok g ->
        match dict_get "children" d with
        | None => SubGoal.children g = []
        | Some x =>
            exists l,
              x = JArr l
              /\ Forall2 (fun y child => SubGoal.validate_value y = Ok child)
                   l (SubGoal.children g)
        end).
Proof.
  split; intros g H; unfold_models; fields_of H; cbn.
  - match goal with
    | F : field d "sub_goals" _ _ = Ok _ |- _ =>
        unfold field in F;
        destruct (dict_get "sub_goals" d) as [[ | | | | | l | ] | ];
        try discriminate F; cbn [v_list] in F; apply v_all_Forall2 in F
    end.
    eauto.
  - match goal with
    | F : field d "children" _ _ = Ok _ |- _ =>
        unfold field in F;
        destruct (dict_get "children" d) as [[ | | | | | l | ] | ];
        try discriminate F
    end.
    + match goal with
      | F : v_list _ _ = Ok _ |- _ =>
          cbn [v_list] in F; apply v_all_Forall2 in F
      end.
      eauto.
    + match goal with F : coerced _ = Ok _ |- _ => now injection F as <- end.
Qed.

Lemma nested_sequences_keep_their_order_witness :
  exists l,
    dict_get "sub_goals" Samples.SAMPLE_GRAPH = Some (JArr l)
    /\ exists g,
         IntentGraph.validate (L := Samples.native_only) Samples.SAMPLE_GRAPH
           = Ok g
         /\ Forall2 (fun x sub_goal =>
                       SubGoal.validate_value (L := Samples.native_only) x
                       = Ok sub_goal)
              l (IntentGraph.sub_goals g).
Proof.
  eexists. split; [reflexivity | ].
  eexists. split; [reflexivity | ].
  destruct (proj1 (nested_sequences_keep_their_order Samples.native_only
                     Samples.SAMPLE_GRAPH) _ eq_refl) as (l & Hl & Hall).
  injection Hl as <-. exact Hall.
Defined.

(** *** From [create_session] to the session operations *)

(** X15.  A session obtained from [create_session] addresses, in each of
    its five operations and over any connection, the path of the identifier
    the service returned, not the one the caller asked for; for an
    identifier that is a string the path is [/v1/sessions/<id>/<operation>]
    verbatim. *)
Theorem created_session_addresses_the_returned_identifier
    (L : Lax) (F : Format) (status : Z) (d : dict) (id : string)
    (requested : option string) (http : Transport)
    (message response : string) (provider role : option string) :
  success status ->
  dict_get "session_id" d = Some (JStr id) ->
  exists s,
    snd (Client.create_session requested (answering status (JObj d))) = Ok s
    /\ map path (fst (Session.parse s message provider http))
       = ["/v1/sessions/" ++ id ++ "/parse"]
    /\ map path (fst (Session.update s response role http))
       = ["/v1/sessions/" ++ id ++ "/update"]
    /\ map path (fst (Session.check_drift s http))
       = ["/v1/sessions/" ++ id ++ "/drift"]
    /\ map path (fst (Session.get_graph s http))
       = ["/v1/sessions/" ++ id ++ "/graph"]
    /\ map path (fst (Session.end_ s http))
       = ["/v1/sessions/" ++ id ++ "/end"].
Proof.
  intros Hs Hid.
  exists {| Session._client := Client._request;
            Session.session_id := JStr id |}.
  split.
  - unfold Client.create_session.
    change (answering status (JObj d))
      with (answering_raw status (Some (JObj d))).
    answered_raw Hs. cbn [Py.getitem]. now rewrite Hid.
  - unfold Session.parse, Session.update, Session.check_drift,
      Session.get_graph, Session.end_, Session._request.
    cbn [Session._client Session.session_id format].
    repeat match goal with |- _ /\ _ => split end;
      match goal with
      | |- map path (fst ?op) = _ =>
          let H := fresh "H" in
          eassert (H : fst op = [_]) by one_request;
          rewrite H; reflexivity
      end.
Qed.

Lemma created_session_addresses_the_returned_identifier_witness :
  exists s,
    snd (Client.create_session None
           (answering 200 (JObj [("session_id", JStr "sess_test123")])))
      = Ok s
    /\ map path
         (fst (Session.parse (L := Samples.native_only)
                 (F := Samples.opaque_format) s "m" None (raising TypeError)))
       = ["/v1/sessions/sess_test123/parse"]
    /\ map path
         (fst (Session.update (F := Samples.opaque_format) s
                 "Here is the refactored code..." None (raising TypeError)))
       = ["/v1/sessions/sess_test123/update"]
    /\ map path
         (fst (Session.check_drift (L := Samples.native_only)
                 (F := Samples.opaque_format) s (raising TypeError)))
       = ["/v1/sessions/sess_test123/drift"]
    /\ map path
         (fst (Session.get_graph (L := Samples.native_only)
                 (F := Samples.opaque_format) s (raising TypeError)))
       = ["/v1/sessions/sess_test123/graph"]
    /\ map path
         (fst (Session.end_ (F := Samples.opaque_format) s (raising TypeError)))
       = ["/v1/sessions/sess_test123/end"].
Proof.
  apply (created_session_addresses_the_returned_identifier
           Samples.native_only Samples.opaque_format 200
           [("session_id", JStr "sess_test123")] "sess_test123" None
           (raising TypeError) "m" "Here is the refactored code..." None None).
  - unfold success. lia.
  - reflexivity.
Defined.

(** *** Drift reports *)

(** X16.  The optional fields of a [DriftReport] do not depend on
    [detected]: whatever [detected] is, a string or a float the payload
    carries for one of them is kept, an integer severity is kept as the
    double Python converts it to (so it is one that converts), and an
    explicit null is accepted and validates to [None], like an absent
    field. *)
Theorem drift_report_fields_are_independent
    (L : Lax) (d : dict) (r : DriftReport.t) :
  DriftReport.validate d = Ok r ->
  (forall x, dict_get "drift_type" d = Some x ->
     match x with
     | JStr s => DriftReport.drift_type r = Some s
     | JNull => DriftReport.drift_type r = None
     | _ => False
     end)
  /\ (forall x, dict_get "description" d = Some x ->
        match x with
        | JStr s => DriftReport.description r = Some s
        | JNull => DriftReport.description r = None
        | _ => False
        end)
  /\ (forall x, dict_get "previous_goal" d = Some x ->
        match x with
        | JStr s => DriftReport.previous_goal r = Some s
        | JNull => DriftReport.previous_goal r = None
        | _ => False
        end)
  /\ (forall x, dict_get "current_goal" d = Some x ->
        match x with
        | JStr s => DriftReport.current_goal r = Some s
        | JNull => DriftReport.current_goal r = None
        | _ => False
        end)
  /\ (forall x, dict_get "severity" d = Some x ->
        match x with
        | JFloat q => DriftReport.severity r = Some q
        | JInt z => DriftReport.severity r = double_of_Z z
                    /\ double_of_Z z <> None
        | JNull => DriftReport.severity r = None
        | _ => True
        end).
Proof.
  intros H. unfold DriftReport.validate in H. fields_of H.
  cbn [DriftReport.drift_type DriftReport.description
         DriftReport.previous_goal DriftReport.current_goal
         DriftReport.severity].
  repeat match goal with |- _ /\ _ => split end; intros x Hx;
    match goal with
    | F : field d ?n _ _ = Ok _, Hx : dict_get ?n d = Some _ |- _ =>
        rewrite (field_present _ _ _ _ _ Hx) in F;
        destruct x as [ | | z | | | | ];
        cbn [v_optional v_float v_str coerced invalid Py.bind] in F;
        try discriminate F; try exact I;
        try (destruct (double_of_Z z); cbn [coerced invalid Py.bind] in F;
             [ | discriminate F]);
        injection F as <-; try split; try reflexivity; discriminate
    end.
Qed.

Lemma drift_report_fields_are_independent_witness :
  exists r,
    DriftReport.validate (L := Samples.native_only)
      [("detected", JBool false); ("drift_type", JStr "scope_creep");
       ("description", JNull)] = Ok r
    /\ DriftReport.detected r = false
    /\ DriftReport.drift_type r = Some "scope_creep"
    /\ DriftReport.description r = None.
Proof.
  eexists. split; [reflexivity | ].
  split; [reflexivity | ].
  destruct (drift_report_fields_are_independent Samples.native_only
              [("detected", JBool false); ("drift_type", JStr "scope_creep");
               ("description", JNull)] _ eq_refl)
    as (Htype & Hdescription & _).
  split.
  - exact (Htype (JStr "scope_creep") eq_refl).
  - exact (Hdescription JNull eq_refl).
Defined.
